(** * A library catalogue: [Book] and [Library] of [main.py]

    A shallow embedding of the two classes of [main.py] and of its
    console loop [main], and the proofs of their properties.

    Conventions of the embedding.
    - A Python [str] is the list of its code points.  One that holds a
      surrogate cannot be encoded in UTF-8: writing it to a file raises
      [UnicodeEncodeError].
    - A Python [int] is unbounded; [bool] is its subclass, so a value that
      passes [isinstance(value, int)] is an integer proper or a boolean.
      [int] and [str] refuse, with [ValueError], to convert a numeral of
      more digits than the limit of the interpreter, 4300 unless it is
      set otherwise.
    - A value of unknown type (an argument, a value read from a JSON
      document) is a [pyval].
    - A method of [Library] is a function of the object's state that
      returns its outcome (a value or the exception raised) together with
      the state it leaves.  An exception is kept by its class.
    - The books of a library are reached through the library only; a book
      that a method returns is given by its value at the return.
    - [json.dump] and [json.load] belong to the interpreter: a [.json]
      file is kept as the document that [json.load] returns for it.
    - A text file keeps the text written to it, the line separator of the
      platform being LF; reading translates CR LF and CR to LF, as a file
      opened in text mode does.
    - The files are known by the path given to [open].  A path has a
      file that [open] can read, whose content is text in UTF-8 (a JSON
      document or not, for [json.load]), or it has none: [open] then
      raises [ValueError] for a path with a null character in it, and
      otherwise what the platform answers, [FileNotFoundError] or an
      [OSError] of another class.  [open] for writing raises in the same
      way or leaves an empty file, which the writes fill until one of
      them raises.  No path with a null character in it has a file.
    - [main] runs on the lines that [input] is going to read, a finite
      list: [input] raises [EOFError] when none is left.  What [print] and
      the prompts of [input] write is kept as one text.  [print] is
      given for what it can show: strings that the console can encode,
      integers within the limit of [str]; the theorem about
      [display_books] assumes it of the books. *)

From Stdlib Require Import ZArith NArith List Bool Lia String Ascii.
From Stdlib Require Import DecimalPos DecimalZ.
From stdpp Require Import gmap list.
Import ListNotations.
Set Warnings "-register-all".

Local Open Scope N_scope.

(** ** Strings *)

Definition char := N.
Definition str := list char.

(** Code points of a UTF-8 byte sequence; used for the literals of the
    source only, which are well formed. *)
Fixpoint utf8_decode (bs : list N) : str :=
  match bs with
  | [] => []
  | b0 :: r0 =>
    if b0 <? 128 then b0 :: utf8_decode r0
    else match r0 with
    | [] => []
    | b1 :: r1 =>
      if b0 <? 224 then ((b0 - 192) * 64 + (b1 - 128)) :: utf8_decode r1
      else match r1 with
      | [] => []
      | b2 :: r2 =>
        if b0 <? 240
        then ((b0 - 224) * 4096 + (b1 - 128) * 64 + (b2 - 128)) :: utf8_decode r2
        else match r2 with
        | [] => []
        | b3 :: r3 =>
          ((b0 - 240) * 262144 + (b1 - 128) * 4096 + (b2 - 128) * 64 + (b3 - 128))
            :: utf8_decode r3
        end
      end
    end
  end.

(** A literal of the source. *)
Definition lit (s : string) : str :=
  utf8_decode (map N_of_ascii (list_ascii_of_string s)).

Definition str_eqb (a b : str) : bool := bool_decide (a = b).

(** [str.isspace] of one character. *)
Definition isspace (c : char) : bool :=
  ((9 <=? c) && (c <=? 13)) || ((28 <=? c) && (c <=? 32))
  || (c =? 133) || (c =? 160) || (c =? 5760)
  || ((8192 <=? c) && (c <=? 8202))
  || (c =? 8232) || (c =? 8233) || (c =? 8239) || (c =? 8287) || (c =? 12288).

Fixpoint lstrip (s : str) : str :=
  match s with
  | c :: s' => if isspace c then lstrip s' else s
  | [] => []
  end.

Definition rstrip (s : str) : str := rev (lstrip (rev s)).

(** [s.strip()] *)
Definition strip (s : str) : str := rstrip (lstrip s).

(** [s.split(sep)] for a separator of one character: never empty. *)
Fixpoint split (sep : char) (s : str) : list str :=
  match s with
  | [] => [[]]
  | c :: s' =>
    if c =? sep then [] :: split sep s'
    else match split sep s' with
         | part :: parts => (c :: part) :: parts
         | [] => [[c]]
         end
  end.

Definition NL : char := 10.
Definition CR : char := 13.
Definition PIPE : char := 124.

(** A string that UTF-8 can encode: none of its code points is a
    surrogate (U+D800 to U+DFFF). *)
Definition is_surrogate (c : char) : bool := (55296 <=? c) && (c <=? 57343).

Definition encodable (s : str) : bool := forallb (fun c => negb (is_surrogate c)) s.

(** A path with a null character in it, which [open] refuses. *)
Definition has_nul (path : str) : bool := existsb (fun c => c =? 0) path.

(** What a file opened for reading in text mode returns for the stored
    text: each of CR LF and CR becomes LF. *)
Fixpoint universal_newlines (s : str) : str :=
  match s with
  | [] => []
  | c :: s' =>
    if c =? CR
    then NL :: match s' with
               | c' :: s'' => if c' =? NL then universal_newlines s''
                              else universal_newlines s'
               | [] => []
               end
    else c :: universal_newlines s'
  end.

(** [f.readlines()]: the lines, each with the LF that ends it. *)
Fixpoint readlines (s : str) : list str :=
  match s with
  | [] => []
  | c :: s' =>
    if c =? NL then [NL] :: readlines s'
    else match readlines s' with
         | line :: lines => (c :: line) :: lines
         | [] => [[c]]
         end
  end.

(** ** Values and exceptions *)

(** An instance of [int]: an integer proper, or [True] / [False]. *)
Inductive pyint :=
  | Int (z : Z)
  | Bool (b : bool).

Definition int_value (i : pyint) : Z :=
  match i with
  | Int z => z
  | Bool true => 1%Z
  | Bool false => 0%Z
  end.

(** [a == b] on instances of [int]. *)
Definition int_eqb (a b : pyint) : bool := (int_value a =? int_value b)%Z.

(** A dynamically typed value.  A [dict] has string keys, each once, in
    the order of insertion; a float is kept abstract, the program has no
    operation that looks into one. *)
Inductive pyval :=
  | VNone
  | VInt (i : pyint)
  | VFloat
  | VStr (s : str)
  | VList (l : list pyval)
  | VDict (d : list (str * pyval)).

(** The exceptions, each by its class; [OSError] stands for the classes
    of [OSError] other than [FileNotFoundError] ([NotADirectoryError],
    [IsADirectoryError], [PermissionError], [OSError] itself). *)
Inductive exn :=
  | ValueError
  | JSONDecodeError
  | UnicodeEncodeError
  | TypeError
  | KeyError
  | IndexError
  | FileNotFoundError
  | OSError.

(** [isinstance(e, ValueError)]: [json.JSONDecodeError] and
    [UnicodeEncodeError] are subclasses. *)
Definition is_ValueError (e : exn) : bool :=
  match e with
  | ValueError | JSONDecodeError | UnicodeEncodeError => true
  | _ => false
  end.

Inductive result (A : Type) :=
  | Ok (a : A)
  | Raise (e : exn).
Arguments Ok {A} a.
Arguments Raise {A} e.

Definition rbind {A B} (r : result A) (k : A -> result B) : result B :=
  match r with
  | Ok a => k a
  | Raise e => Raise e
  end.

Notation "'let*' x := r 'in' k" := (rbind r (fun x => k))
  (at level 10, x name, r at level 100, k at level 200).

(** [[f(x) for x in l]]: stops at the first exception. *)
Fixpoint comprehension {A B} (f : A -> result B) (l : list A) : result (list B) :=
  match l with
  | [] => Ok []
  | x :: l' => let* y := f x in let* ys := comprehension f l' in Ok (y :: ys)
  end.

(** [l[i]] on a list. *)
Definition list_getitem {A} (l : list A) (i : nat) : result A :=
  match nth_error l i with
  | Some x => Ok x
  | None => Raise IndexError
  end.

Fixpoint assoc (key : str) (d : list (str * pyval)) : option pyval :=
  match d with
  | [] => None
  | (k, v) :: d' => if str_eqb k key then Some v else assoc key d'
  end.

(** [data[key]] for a string [key]. *)
Definition getitem (data : pyval) (key : str) : result pyval :=
  match data with
  | VDict d => match assoc key d with
               | Some v => Ok v
               | None => Raise KeyError
               end
  | _ => Raise TypeError
  end.

(** The values that [for x in v] goes through. *)
Definition iterate (v : pyval) : result (list pyval) :=
  match v with
  | VList l => Ok l
  | VDict d => Ok (map (fun kv => VStr (fst kv)) d)
  | VStr s => Ok (map (fun c => VStr [c]) s)
  | _ => Raise TypeError
  end.

(** [v + 1] *)
Definition add_one (v : pyval) : result pyval :=
  match v with
  | VInt i => Ok (VInt (Int (int_value i + 1)))
  | VFloat => Ok VFloat
  | _ => Raise TypeError
  end.

(** ** The interpreter's tables

    What [str.isdigit], [int] and [str] do outside ASCII, and on floats
    and containers, is fixed by the interpreter and its Unicode database,
    not by the program, and so is the limit on the digits of an integer
    that [int] and [str] convert: the development is parametric in
    them. *)
Class Interpreter := {
  (** [c.isdigit()] for a code point from 128 on *)
  unicode_isdigit : char -> bool;
  (** the decimal digit value of a code point from 127 on, if it has one *)
  unicode_todecimal : char -> option N;
  (** [str(v)] for a float, a list or a dict, or the exception it raises *)
  repr : pyval -> result str;
  (** [sys.get_int_max_str_digits()]: 4300 unless it is set otherwise,
      0 for no limit *)
  int_max_str_digits : N;
}.

Section Program.
Context {interp : Interpreter}.

Definition is_ascii_digit (c : char) : bool := (48 <=? c) && (c <=? 57).

Definition isdigit_char (c : char) : bool :=
  if c <? 128 then is_ascii_digit c else unicode_isdigit c.

(** [s.isdigit()]: every character is a digit and there is at least one. *)
Definition isdigit (s : str) : bool :=
  match s with
  | [] => false
  | _ => forallb isdigit_char s
  end.

(** *** [str(i)] *)

Fixpoint uint_chars (d : Decimal.uint) : str :=
  match d with
  | Decimal.Nil => []
  | Decimal.D0 d => 48 :: uint_chars d
  | Decimal.D1 d => 49 :: uint_chars d
  | Decimal.D2 d => 50 :: uint_chars d
  | Decimal.D3 d => 51 :: uint_chars d
  | Decimal.D4 d => 52 :: uint_chars d
  | Decimal.D5 d => 53 :: uint_chars d
  | Decimal.D6 d => 54 :: uint_chars d
  | Decimal.D7 d => 55 :: uint_chars d
  | Decimal.D8 d => 56 :: uint_chars d
  | Decimal.D9 d => 57 :: uint_chars d
  end.

Definition MINUS : char := 45.
Definition PLUS : char := 43.
Definition UNDERSCORE : char := 95.

(** The numeral of an integer: what [str] returns for it when it
    converts it. *)
Definition str_of_Z (z : Z) : str :=
  match Z.to_int z with
  | Decimal.Pos d => uint_chars d
  | Decimal.Neg d => MINUS :: uint_chars d
  end.

(** A numeral of so many digits is refused, by [str] and by [int] alike,
    with [ValueError]: the interpreter checks numerals of more than 640
    digits against its limit. *)
Definition over_limit (digits : nat) : bool :=
  (640 <? N.of_nat digits) && (0 <? int_max_str_digits)
  && (int_max_str_digits <? N.of_nat digits).

(** An integer that [str] converts. *)
Definition printable (z : Z) : bool :=
  match Z.to_int z with
  | Decimal.Pos d | Decimal.Neg d => negb (over_limit (length (uint_chars d)))
  end.

Definition printable_int (i : pyint) : bool :=
  match i with
  | Int z => printable z
  | Bool _ => true
  end.

Definition str_of_int (i : pyint) : str :=
  match i with
  | Int z => str_of_Z z
  | Bool true => lit "True"
  | Bool false => lit "False"
  end.

(** [str(i)] with the check of the digits. *)
Definition format_int (i : pyint) : result str :=
  if printable_int i then Ok (str_of_int i) else Raise ValueError.

(** [str(v)], as an f-string formats a value *)
Definition str_of (v : pyval) : result str :=
  match v with
  | VNone => Ok (lit "None")
  | VInt i => format_int i
  | VStr s => Ok s
  | _ => repr v
  end.

(** *** [int(s)] *)

(** White space becomes a blank and a decimal digit its ASCII digit; the
    text ends with a question mark at a character that is neither. *)
Fixpoint to_ascii_decimal (s : str) : str :=
  match s with
  | [] => []
  | c :: s' =>
    if c <? 127 then c :: to_ascii_decimal s'
    else if isspace c then 32 :: to_ascii_decimal s'
    else match unicode_todecimal c with
         | Some d => (48 + d) :: to_ascii_decimal s'
         | None => [63]
         end
  end.

Definition is_c_space (c : char) : bool := ((9 <=? c) && (c <=? 13)) || (c =? 32).

Fixpoint skip_c_space (s : str) : str :=
  match s with
  | c :: s' => if is_c_space c then skip_c_space s' else s
  | [] => []
  end.

(** The run of digits and underscores at the head of [s], with the value
    of the digits; [prev] is the character before [s] (0 at the start).
    No two underscores in a row, none at the end, and the run not empty. *)
Fixpoint scan_digits (s : str) (acc : N) (prev : char) : option (N * str) :=
  let stop := if (prev =? UNDERSCORE) || (prev =? 0) then None else Some (acc, s) in
  match s with
  | c :: s' =>
    if is_ascii_digit c then scan_digits s' (10 * acc + (c - 48)) c
    else if c =? UNDERSCORE
         then if prev =? UNDERSCORE then None else scan_digits s' acc c
         else stop
  | [] => stop
  end.

Definition leading_underscore (s : str) : bool :=
  match s with
  | c :: _ => c =? UNDERSCORE
  | [] => false
  end.

(** The digits of a numeral, which are counted against the limit. *)
Definition count_digits (s : str) : nat := length (List.filter is_ascii_digit s).

(** [int(s)] for a string: blanks, a sign, digits, blanks. *)
Definition int_of_str (s : str) : result Z :=
  let s := skip_c_space (to_ascii_decimal s) in
  let '(negative, s) :=
    match s with
    | c :: s' => if c =? PLUS then (false, s')
                 else if c =? MINUS then (true, s') else (false, s)
    | [] => (false, s)
    end in
  if leading_underscore s then Raise ValueError
  else match scan_digits s 0 0 with
       | Some (n, rest) =>
         match skip_c_space rest with
         | [] => if over_limit (count_digits s) then Raise ValueError
                 else Ok (if negative then - Z.of_N n else Z.of_N n)%Z
         | _ => Raise ValueError
         end
       | None => Raise ValueError
       end.

(** ** Book *)

Definition STATUS_YES : str := lit "в наличии".
Definition STATUS_NO : str := lit "выдана".

(** The attributes of a [Book], each as its setter leaves it: [_title]
    and [_author] strings, [_year] an instance of [int], [_id] [None] or
    an instance of [int], [_status] [None] or a string. *)
Record Book := mkBook {
  _title : str;
  _author : str;
  _year : pyint;
  _id : option pyint;
  _status : option str;
}.

Definition title_setter (value : pyval) : result str :=
  match value with
  | VStr s => Ok s
  | _ => Raise ValueError
  end.

Definition author_setter (value : pyval) : result str :=
  match value with
  | VStr s => if isdigit s then Raise ValueError else Ok s
  | _ => Raise ValueError
  end.

Definition year_setter (value : pyval) : result pyint :=
  match value with
  | VInt i => Ok i
  | _ => Raise ValueError
  end.

(** [Book(title, author, year)] *)
Definition Book_init (title author year : pyval) : result Book :=
  let* title := title_setter title in
  let* author := author_setter author in
  let* year := year_setter year in
  Ok {| _title := title; _author := author; _year := year;
        _id := None; _status := None |}.

Definition with_id (self : Book) (i : option pyint) : Book :=
  {| _title := _title self; _author := _author self; _year := _year self;
     _id := i; _status := _status self |}.

Definition with_status (self : Book) (s : option str) : Book :=
  {| _title := _title self; _author := _author self; _year := _year self;
     _id := _id self; _status := s |}.

(** [self.id = value] *)
Definition id_setter (self : Book) (value : pyval) : result Book :=
  match value with
  | VNone => Ok (with_id self None)
  | VInt i => Ok (with_id self (Some i))
  | _ => Raise ValueError
  end.

(** [self.status = value] *)
Definition status_setter (self : Book) (value : pyval) : result Book :=
  match value with
  | VNone => Ok (with_status self None)
  | VStr s =>
    if str_eqb s STATUS_YES || str_eqb s STATUS_NO
    then Ok (with_status self (Some s))
    else Raise ValueError
  | _ => Raise ValueError
  end.

Definition of_option {A} (f : A -> pyval) (o : option A) : pyval :=
  match o with
  | Some a => f a
  | None => VNone
  end.

Definition to_dict (self : Book) : pyval :=
  VDict [ (lit "id", of_option VInt (_id self));
          (lit "title", VStr (_title self));
          (lit "author", VStr (_author self));
          (lit "year", VInt (_year self));
          (lit "status", of_option VStr (_status self)) ].

Definition from_dict (data : pyval) : result Book :=
  let* title := getitem data (lit "title") in
  let* author := getitem data (lit "author") in
  let* year := getitem data (lit "year") in
  let* book := Book_init title author year in
  let* id := getitem data (lit "id") in
  let* book := id_setter book id in
  let* status := getitem data (lit "status") in
  let* book := status_setter book status in
  Ok book.

(** ** Library *)

(** [next_id] holds whatever was last assigned to it: [load_from_json]
    stores the value of the document as it is. *)
Record Library := mkLibrary {
  books : list Book;
  next_id : pyval;
}.

(** [Library()] *)
Definition Library_init : Library := {| books := []; next_id := VInt (Int 1) |}.

Definition set_books (bs : list Book) (self : Library) : Library :=
  {| books := bs; next_id := next_id self |}.

Definition set_next_id (n : pyval) (self : Library) : Library :=
  {| books := books self; next_id := n |}.

(** A method: from the state of [self] to the outcome and the state left. *)
Definition method (A : Type) := Library -> result A * Library.

Definition ret {A} (a : A) : method A := fun self => (Ok a, self).

Definition bind {A B} (m : method A) (k : A -> method B) : method B :=
  fun self =>
    match m self with
    | (Ok a, self') => k a self'
    | (Raise e, self') => (Raise e, self')
    end.

Definition lift {A} (r : result A) : method A := fun self => (r, self).

Definition read {A} (f : Library -> A) : method A := fun self => (Ok (f self), self).

Definition assign (f : Library -> Library) : method unit := fun self => (Ok tt, f self).

Notation "'let!' x := m 'in' k" := (bind m (fun x => k))
  (at level 10, x name, m at level 100, k at level 200).
Notation "m ;; k" := (bind m (fun _ => k))
  (at level 100, k at level 200, right associativity).

Definition add_book (title author year : pyval) : method Book :=
  let! book := lift (Book_init title author year) in
  let! n := read next_id in
  let! book := lift (id_setter book n) in
  let! book := lift (status_setter book (VStr STATUS_YES)) in
  assign (fun self => set_books (books self ++ [book]) self) ;;
  let! n := read next_id in
  let! n := lift (add_one n) in
  assign (set_next_id n) ;;
  ret book.

(** [book.id == book_id] *)
Definition id_eqb (id : option pyint) (book_id : pyint) : bool :=
  match id with
  | Some i => int_eqb i book_id
  | None => false
  end.

Definition remove_book (book_id : pyint) : method bool :=
  let! initial_length := read (fun self => length (books self)) in
  assign (fun self =>
    set_books (List.filter (fun book => negb (id_eqb (_id book) book_id)) (books self)) self) ;;
  let! n := read (fun self => length (books self)) in
  ret (n <? initial_length)%nat.

(** [criterion is None or field == criterion] *)
Definition matches {A} (eqb : A -> A -> bool) (criterion : option A) (field : A) : bool :=
  match criterion with
  | None => true
  | Some x => eqb field x
  end.

Definition find_books (title author : option str) (year : option pyint)
    (self : Library) : list Book :=
  fold_left
    (fun result book =>
       if matches str_eqb title (_title book)
          && matches str_eqb author (_author book)
          && matches int_eqb year (_year book)
       then result ++ [book] else result)
    (books self) [].

Definition status_is (book : Book) (s : str) : bool :=
  match _status book with
  | Some s' => str_eqb s' s
  | None => false
  end.

(** The loop of [change_status] over the books from some position on:
    [None] when it ends without a match, the books as the assignment
    leaves them when it returns [True]. *)
Fixpoint change_status_loop (bs : list Book) (book_id : pyint)
    : result (option (list Book)) :=
  match bs with
  | [] => Ok None
  | book :: bs' =>
    if id_eqb (_id book) book_id then
      if status_is book STATUS_YES then
        let* book := status_setter book (VStr STATUS_NO) in Ok (Some (book :: bs'))
      else if status_is book STATUS_NO then
        let* book := status_setter book (VStr STATUS_YES) in Ok (Some (book :: bs'))
      else Raise ValueError
    else
      let* r := change_status_loop bs' book_id in
      Ok (option_map (cons book) r)
  end.

Definition change_status (book_id : pyint) : method bool :=
  let! bs := read books in
  let! r := lift (change_status_loop bs book_id) in
  match r with
  | Some bs' => assign (set_books bs') ;; ret true
  | None => ret false
  end.

(** ** Files *)

(** A [.json] file as [json.load] sees it. *)
Inductive json_file :=
  | Malformed
  | Document (data : pyval).

(** The files, by path: the text of a text file, the document of a JSON
    file.  The two loaders read paths that end differently.  For a path
    without a file, [unreadable] is what [open] raises when that is not
    [FileNotFoundError]: an [OSError] of another class, the path naming
    a directory, leading through a file, or being too long for the
    platform.  [unwritable] is what [open] raises for a path that it
    does not open for writing: [FileNotFoundError] for a directory that
    is not there, an [OSError] of another class otherwise. *)
Record FileSystem := mkFileSystem {
  text_files : gmap str str;
  json_files : gmap str json_file;
  unreadable : str -> option exn;
  unwritable : str -> option exn;
}.

(** What [open(path, 'r')] raises for a path without a file: it looks at
    the path before it asks the platform. *)
Definition open_error (fs : FileSystem) (path : str) : exn :=
  if has_nul path then ValueError
  else match unreadable fs path with
       | Some e => e
       | None => FileNotFoundError
       end.

(** [open(path, 'w')] *)
Definition open_for_writing (fs : FileSystem) (path : str) : result unit :=
  if has_nul path then Raise ValueError
  else match unwritable fs path with
       | Some e => Raise e
       | None => Ok tt
       end.

(** What [json.dump] raises for a value, if it raises: [ValueError] at
    the first integer that [str] refuses, [UnicodeEncodeError] at the
    first string that UTF-8 cannot encode, the file being written as the
    value is gone through. *)
Fixpoint dump_error (v : pyval) : option exn :=
  match v with
  | VNone | VFloat => None
  | VInt i => if printable_int i then None else Some ValueError
  | VStr s => if encodable s then None else Some UnicodeEncodeError
  | VList l =>
    (fix items (l : list pyval) : option exn :=
       match l with
       | [] => None
       | x :: l' =>
         match dump_error x with
         | Some e => Some e
         | None => items l'
         end
       end) l
  | VDict d =>
    (fix items (d : list (str * pyval)) : option exn :=
       match d with
       | [] => None
       | (k, x) :: d' =>
         if encodable k
         then match dump_error x with
              | Some e => Some e
              | None => items d'
              end
         else Some UnicodeEncodeError
       end) d
  end.

(** [data] of [save_to_json] *)
Definition document (self : Library) : pyval :=
  VDict [ (lit "next_id", next_id self);
          (lit "books", VList (map to_dict (books self))) ].

(** The file is opened, and emptied, before [json.dump] goes through the
    data: when [json.dump] raises, what is left is no JSON document. *)
Definition save_to_json (filename : str) (self : Library) (fs : FileSystem)
    : result unit * FileSystem :=
  let data := document self in
  let filename := filename ++ lit ".json" in
  match open_for_writing fs filename with
  | Raise e => (Raise e, fs)
  | Ok _ =>
    match dump_error data with
    | Some e =>
      (Raise e, {| text_files := text_files fs;
                   json_files := <[filename := Malformed]> (json_files fs);
                   unreadable := unreadable fs; unwritable := unwritable fs |})
    | None =>
      (Ok tt, {| text_files := text_files fs;
                 json_files := <[filename := Document data]> (json_files fs);
                 unreadable := unreadable fs; unwritable := unwritable fs |})
    end
  end.

Definition load_from_json (fs : FileSystem) (filename : str) : method unit :=
  let filename := filename ++ lit ".json" in
  match json_files fs !! filename with
  | None => lift (Raise (open_error fs filename))
  | Some Malformed => lift (Raise JSONDecodeError)
  | Some (Document data) =>
    let! n := lift (getitem data (lit "next_id")) in
    assign (set_next_id n) ;;
    let! bs := lift (let* l := getitem data (lit "books") in
                     let* l := iterate l in
                     comprehension from_dict l) in
    assign (set_books bs)
  end.

Definition str_of_option {A} (f : A -> str) (o : option A) : str :=
  match o with
  | Some a => f a
  | None => lit "None"
  end.

(** The line that [save_to_text] writes for a book. *)
Definition book_line (book : Book) : str :=
  str_of_option str_of_int (_id book) ++ [PIPE] ++ _title book ++ [PIPE]
  ++ _author book ++ [PIPE] ++ str_of_int (_year book) ++ [PIPE]
  ++ str_of_option (fun s => s) (_status book) ++ [NL].

(** A book whose id and year [str] converts. *)
Definition printable_book (book : Book) : bool :=
  match _id book with
  | Some i => printable_int i
  | None => true
  end
  && printable_int (_year book).

(** The f-string of the line: it converts the id and the year. *)
Definition format_line (book : Book) : result str :=
  if printable_book book then Ok (book_line book) else Raise ValueError.

(** What the calls of [f.write] leave in the file, each for one string
    of [chunks]: the strings before the first that cannot be formatted
    or encoded, and the exception of that one. *)
Fixpoint write (chunks : list (result str)) : result unit * str :=
  match chunks with
  | [] => (Ok tt, [])
  | Raise e :: _ => (Raise e, [])
  | Ok s :: chunks' =>
    if encodable s
    then let (r, text) := write chunks' in (r, s ++ text)
    else (Raise UnicodeEncodeError, [])
  end.

Definition save_to_text (filename : str) (self : Library) (fs : FileSystem)
    : result unit * FileSystem :=
  let filename := filename ++ lit ".txt" in
  match open_for_writing fs filename with
  | Raise e => (Raise e, fs)
  | Ok _ =>
    let (r, text) :=
      write ((let* s := str_of (next_id self) in Ok (s ++ [NL]))
             :: map format_line (books self)) in
    (r, {| text_files := <[filename := text]> (text_files fs);
           json_files := json_files fs;
           unreadable := unreadable fs; unwritable := unwritable fs |})
  end.

(** One turn of the loop of [load_from_text]: the book of a line. *)
Definition book_of_line (line : str) : result Book :=
  let parts := split PIPE (strip line) in
  let* title := list_getitem parts 1 in
  let* author := list_getitem parts 2 in
  let* year := list_getitem parts 3 in
  let* year := int_of_str year in
  let* book := Book_init (VStr title) (VStr author) (VInt (Int year)) in
  let* id := list_getitem parts 0 in
  let* id := int_of_str id in
  let* book := id_setter book (VInt (Int id)) in
  let* status := list_getitem parts 4 in
  let* book := status_setter book (VStr status) in
  Ok book.

Fixpoint load_lines (lines : list str) : method unit :=
  match lines with
  | [] => ret tt
  | line :: lines' =>
    let! book := lift (book_of_line line) in
    assign (fun self => set_books (books self ++ [book]) self) ;;
    load_lines lines'
  end.

(** [int(lines[0].strip())] *)
Definition header (lines : list str) : result Z :=
  let* line := list_getitem lines 0 in
  int_of_str (strip line).

Definition load_from_text (fs : FileSystem) (filename : str) : method unit :=
  let filename := filename ++ lit ".txt" in
  match text_files fs !! filename with
  | None => lift (Raise (open_error fs filename))
  | Some text =>
    let lines := readlines (universal_newlines text) in
    let! n := lift (header lines) in
    assign (set_next_id (VInt (Int n))) ;;
    assign (set_books []) ;;
    load_lines (tl lines)
  end.

(** ** What is printed *)

(** [repr(self)], which is also what an f-string makes of a book, for a
    book that [print] can show. *)
Definition Book_repr (self : Book) : str :=
  (lit "ID: " ++ str_of_option str_of_int (_id self) ++ lit ", ")
  ++ (lit "Title: " ++ _title self ++ lit ", ")
  ++ (lit "Author: " ++ _author self ++ lit ", ")
  ++ (lit "Year: " ++ str_of_int (_year self) ++ lit ", ")
  ++ (lit "Status: " ++ str_of_option (fun s => s) (_status self)).

(** [print(s)] on a standard output that holds [stdout] so far. *)
Definition print (s : str) (stdout : str) : str := stdout ++ s ++ [NL].

(** [for idx, book in enumerate(bs, start=idx): print(f"{idx}. {book}")] *)
Fixpoint print_numbered (idx : Z) (bs : list Book) (stdout : str) : str :=
  match bs with
  | [] => stdout
  | book :: bs' =>
    print_numbered (idx + 1) bs'
      (print (str_of_Z idx ++ lit ". " ++ Book_repr book) stdout)
  end.

(** What [display_books] adds to the standard output, for books that
    [print] can show. *)
Definition display_books (self : Library) (stdout : str) : str :=
  match books self with
  | _ :: _ => print_numbered 1 (books self) stdout
  | [] => print (lit "Пока в библиотеке отсутствуют книги.") stdout
  end.

(** ** The console loop *)

(** What [main] works on: its library, the files, the lines that
    [input] has still to read and what has been written so far. *)
Record World := mkWorld {
  library : Library;
  files : FileSystem;
  stdin : list str;
  stdout : str;
}.

(** How [main] ends: by [break], by an exception that nothing catches,
    or by the [EOFError] of [input] when no line is left. *)
Inductive ending :=
  | Break
  | Uncaught (e : exn)
  | EOFError.

(** What a statement of the loop body does next: go on with a value,
    [continue] with the next turn, or end the loop. *)
Inductive control (A : Type) :=
  | Value (a : A)
  | Continue
  | Halt (why : ending).
Arguments Value {A} a.
Arguments Continue {A}.
Arguments Halt {A} why.

Definition io (A : Type) := World -> control A * World.

Definition io_ret {A} (a : A) : io A := fun w => (Value a, w).

Definition io_bind {A B} (m : io A) (k : A -> io B) : io B :=
  fun w =>
    match m w with
    | (Value a, w') => k a w'
    | (Continue, w') => (Continue, w')
    | (Halt why, w') => (Halt why, w')
    end.

Notation "'let&' x := m 'in' k" := (io_bind m (fun x => k))
  (at level 10, x name, m at level 100, k at level 200).
Notation "m ;;; k" := (io_bind m (fun _ => k))
  (at level 100, k at level 200, right associativity).

Definition continue {A} : io A := fun w => (Continue, w).

Definition halt {A} (why : ending) : io A := fun w => (Halt why, w).

Definition say (s : str) : io unit :=
  fun w => (Value tt, {| library := library w; files := files w; stdin := stdin w;
                         stdout := print s (stdout w) |}).

(** [input(prompt)]: the prompt is written, then a line is read. *)
Definition input (prompt : str) : io str :=
  fun w =>
    match stdin w with
    | line :: rest =>
      (Value line, {| library := library w; files := files w; stdin := rest;
                      stdout := stdout w ++ prompt |})
    | [] =>
      (Halt EOFError, {| library := library w; files := files w; stdin := [];
                         stdout := stdout w ++ prompt |})
    end.

(** A call of a method of [library], with what it returned or raised. *)
Definition invoke {A} (m : method A) : io (result A) :=
  fun w =>
    let '(r, self) := m (library w) in
    (Value r, {| library := self; files := files w; stdin := stdin w;
                 stdout := stdout w |}).

(** A call of one of the two methods that write a file, with what it
    returned or raised. *)
Definition save (f : Library -> FileSystem -> result unit * FileSystem)
    : io (result unit) :=
  fun w =>
    let '(r, fs) := f (library w) (files w) in
    (Value r, {| library := library w; files := fs; stdin := stdin w;
                 stdout := stdout w |}).

Definition with_display : io unit :=
  fun w => (Value tt, {| library := library w; files := files w; stdin := stdin w;
                         stdout := display_books (library w) (stdout w) |}).

(** [try: n = int(input(prompt)) / except ValueError: print(sorry); continue] *)
Definition input_int (prompt sorry : str) : io Z :=
  let& line := input prompt in
  match int_of_str line with
  | Ok n => io_ret n
  | Raise e => if is_ValueError e then (say sorry ;;; continue) else halt (Uncaught e)
  end.

(** The message of the [ValueError] that [add_book] raises for strings
    [title] and [author] and an integer year: the author setter's when
    the author is made of digits, otherwise the id setter's, [next_id]
    being neither [None] nor an integer. *)
Definition add_book_message (author : str) : str :=
  if isdigit author then lit "Имя автора не может состоять из цифр."
  else lit "ID должно быть числом".

Definition say_found (found : list Book) : io unit :=
  match found with
  | _ :: _ =>
    say (lit "По указанному критерию найдено следующее количество книг: "
         ++ str_of_Z (Z.of_nat (length found)) ++ [NL] ++ lit "А именно:") ;;;
    (fun w => (Value tt, {| library := library w; files := files w; stdin := stdin w;
                            stdout := print_numbered 1 found (stdout w) |}))
  | [] => say (lit "Книги по указанному критерию не найдены.")
  end.

(** The menu that a turn of [while True] prints first. *)
Definition menu : io unit :=
  say ([NL] ++ lit "Система управления библиотекой") ;;;
  say (lit "1. Добавить книгу") ;;;
  say (lit "2. Удалить книгу") ;;;
  say (lit "3. Поиск книги") ;;;
  say (lit "4. Отобразить все книги") ;;;
  say (lit "5. Изменить статус книги") ;;;
  say (lit "6. Сохранить библиотеку в JSON") ;;;
  say (lit "7. Загрузить библиотеку из JSON") ;;;
  say (lit "8. Сохранить библиотеку в текстовый файл") ;;;
  say (lit "9. Загрузить библиотеку из текстового файла") ;;;
  say (lit "10. Выйти" ++ [NL]).

(** The branch of the turn for the line that was read as [choice]. *)
Definition dispatch (choice : str) : io unit :=
  if str_eqb choice (lit "1") then
    let& title := input (lit "Введите название книги: ") in
    let& author := input (lit "Введите автора книги: ") in
    let& year := input_int (lit "Введите год издания книги: ")
                           (lit "Год издания книги должен быть числом.") in
    let& r := invoke (add_book (VStr title) (VStr author) (VInt (Int year))) in
    match r with
    | Raise e =>
      if is_ValueError e then say (add_book_message author) else halt (Uncaught e)
    | Ok result =>
      say (lit "Книга '" ++ _title result ++ lit "' (автор: " ++ _author result
           ++ lit ") " ++ str_of_int (_year result) ++ lit " года издания "
           ++ lit "успешно добавлена в библиотеку.")
    end
  else if str_eqb choice (lit "2") then
    let& book_id := input_int (lit "Введите ID книги для удаления: ")
                              (lit "ID должно быть числом.") in
    let& r := invoke (remove_book (Int book_id)) in
    match r with
    | Raise e => halt (Uncaught e)
    | Ok true => say (lit "Книга с указанным ID удалена из библиотеки.")
    | Ok false => say (lit "Книга с указанным ID отсутствует в библиотеке.")
    end
  else if str_eqb choice (lit "3") then
    say (lit "Поиск книги по:") ;;;
    say (lit "1. Названию") ;;;
    say (lit "2. Автору") ;;;
    say (lit "3. Году издания") ;;;
    let& search_choice := input (lit "Выберите критерий поиска: ") in
    let& found :=
      if str_eqb search_choice (lit "1") then
        let& title := input (lit "Введите название книги: ") in
        fun w => (Value (find_books (Some title) None None (library w)), w)
      else if str_eqb search_choice (lit "2") then
        let& author := input (lit "Введите автора книги: ") in
        fun w => (Value (find_books None (Some author) None (library w)), w)
      else if str_eqb search_choice (lit "3") then
        let& year := input_int (lit "Введите год издания книги: ")
                               (lit "Год должен быть целым положительным числом.") in
        fun w => (Value (find_books None None (Some (Int year)) (library w)), w)
      else
        say (lit "Неверный выбор.") ;;; continue in
    say_found found
  else if str_eqb choice (lit "4") then
    with_display
  else if str_eqb choice (lit "5") then
    let& book_id := input_int (lit "Введите ID книги для изменения статуса: ")
                              (lit "ID должно быть числом.") in
    let& r := invoke (change_status (Int book_id)) in
    match r with
    | Raise e => halt (Uncaught e)
    | Ok true => say (lit "Статус книги с указанным ID изменен.")
    | Ok false => say (lit "Книга с указанным ID отсутствует в библиотеке.")
    end
  else if str_eqb choice (lit "6") then
    let& filename :=
      input (lit "Введите имя файла (без расширения) для сохранения в JSON: ") in
    let& r := save (save_to_json filename) in
    match r with
    | Raise e => halt (Uncaught e)
    | Ok _ =>
      say (lit "Библиотека успешно сохранена в файл " ++ filename ++ lit ".json.")
    end
  else if str_eqb choice (lit "7") then
    let& filename :=
      input (lit "Введите имя файла (без расширения) для загрузки из JSON: ") in
    let& r := fun w => invoke (load_from_json (files w) filename) w in
    match r with
    | Raise FileNotFoundError => say (lit "Указанный JSON-файл отсутствует")
    | Raise e => halt (Uncaught e)
    | Ok _ =>
      say (lit "Библиотека успешно загружена из файла " ++ filename ++ lit ".json.")
    end
  else if str_eqb choice (lit "8") then
    let& filename :=
      input (lit "Введите имя файла (без расширения) для сохранения в текстовый формат: ") in
    let& r := save (save_to_text filename) in
    match r with
    | Raise e => halt (Uncaught e)
    | Ok _ =>
      say (lit "Библиотека успешно сохранена в файл " ++ filename ++ lit ".txt.")
    end
  else if str_eqb choice (lit "9") then
    let& filename :=
      input (lit "Введите имя файла (без расширения) для загрузки из текстового формата: ") in
    let& r := fun w => invoke (load_from_text (files w) filename) w in
    match r with
    | Raise FileNotFoundError => say (lit "Указанный текстовый файл отсутствует")
    | Raise e => halt (Uncaught e)
    | Ok _ =>
      say (lit "Библиотека успешно загружена из файла " ++ filename ++ lit ".txt.")
    end
  else if str_eqb choice (lit "10") then
    halt Break
  else
    say (lit "Неверный выбор. Пожалуйста, выберите от 1 до 10.").

(** One turn of [while True] in [main]. *)
Definition turn : io unit :=
  menu ;;;
  let& choice := input (lit "Выберите действие: ") in
  dispatch choice.

(** [while True]: the turns, one after the other, until one ends the
    loop; [None] when [fuel] turns were not enough. *)
Fixpoint main_loop (fuel : nat) (w : World) : option (ending * World) :=
  match fuel with
  | O => None
  | S fuel' =>
    match turn w with
    | (Halt why, w') => Some (why, w')
    | (_, w') => main_loop fuel' w'
    end
  end.

(** [main()], started with the given files and lines on standard input:
    a turn reads a line or ends the loop, so one turn more than there
    are lines is enough. *)
Definition main (fs : FileSystem) (lines : list str) : option (ending * World) :=
  main_loop (S (length lines))
    {| library := Library_init; files := fs; stdin := lines; stdout := [] |}.

(** ** Notions used to state the properties *)

(** [isinstance(value, str)] and [isinstance(value, int)] *)
Definition isinstance_str (value : pyval) : bool :=
  match value with
  | VStr _ => true
  | _ => false
  end.

Definition isinstance_int (value : pyval) : bool :=
  match value with
  | VInt _ => true
  | _ => false
  end.

(** A string made of digits only. *)
Definition all_digits (value : pyval) : bool :=
  match value with
  | VStr s => isdigit s
  | _ => false
  end.

(** Every criterion that is supplied equals the field of the book. *)
Definition agrees (title author : option str) (year : option pyint) (book : Book)
    : Prop :=
  match title with Some t => _title book = t | None => True end
  /\ match author with Some a => _author book = a | None => True end
  /\ match year with Some y => int_value (_year book) = int_value y | None => True end.

#[export] Instance agrees_dec title author year book :
  Decision (agrees title author year book).
Proof. unfold agrees. destruct title, author, year; apply _. Defined.

(** [book.id == book_id], the test of [change_status] and of
    [remove_book]. *)
Definition has_id (book_id : pyint) (book : Book) : bool := id_eqb (_id book) book_id.

Definition other_status (book : Book) : str :=
  if status_is book STATUS_YES then STATUS_NO else STATUS_YES.



(** A book as the setters leave one: the author not made of digits, the
    status unset or one of the two statuses. *)
Definition valid_book (book : Book) : bool :=
  negb (isdigit (_author book))
  && match _status book with
     | Some s => str_eqb s STATUS_YES || str_eqb s STATUS_NO
     | None => true
     end.

Definition valid_books (self : Library) : bool := forallb valid_book (books self).





(** A call of [add_book] or of [remove_book]. *)
Inductive call :=
  | Add (title author year : pyval)
  | Remove (book_id : pyint).

(** The ids of the books that the calls of [add_book] return, one call
    made after the other from [self] on. *)
Fixpoint issued (calls : list call) (self : Library) : list (option pyint) :=
  match calls with
  | [] => []
  | Add title author year :: calls' =>
    match add_book title author year self with
    | (Ok book, self') => _id book :: issued calls' self'
    | (Raise _, self') => issued calls' self'
    end
  | Remove book_id :: calls' => issued calls' (snd (remove_book book_id self))
  end.

(** A call of [add_book] with arguments that the constructor accepts. *)
Definition valid_add (c : call) : bool :=
  match c with
  | Add title author year =>
    match Book_init title author year with
    | Ok _ => true
    | Raise _ => false
    end
  | Remove _ => false
  end.

(** The ids [first], [first + 1], ... of [count] books. *)
Definition ids_from (first : Z) (count : nat) : list (option pyint) :=
  map (fun k => Some (Int (first + Z.of_nat k))) (seq 0 count).

(** The ids of the books as integers; a book without id gives [None]. *)
Definition id_values (self : Library) : list (option Z) :=
  map (fun book => option_map int_value (_id book)) (books self).

(** All ids among [books] are unique and less than [next_id]. *)
Definition ids_unique_below (self : Library) : Prop :=
  exists n : pyint,
    next_id self = VInt n
    /\ NoDup (id_values self)
    /\ Forall (fun id => exists z, id = Some z /\ (z < int_value n)%Z) (id_values self).

(** A book as [add_book] and [load_from_text] leave one: valid, the id
    and the status set. *)
Definition catalogued (book : Book) : bool :=
  match _id book, _status book with
  | Some _, Some _ => valid_book book
  | _, _ => false
  end.

(** A book that [print] can show: [str] converts its id and its year,
    and no string of it holds a surrogate. *)
Definition showable (book : Book) : bool :=
  printable_book book && encodable (_title book) && encodable (_author book)
  && match _status book with
     | Some s => encodable s
     | None => true
     end.

(** A book without its status: what [change_status] does not touch. *)
Definition without_status (book : Book) : Book := with_status book None.

(** A library as the methods other than [load_from_json] leave one:
    [next_id] an integer, every book catalogued. *)
Definition catalogue (self : Library) : bool :=
  match next_id self with
  | VInt _ => forallb catalogued (books self)
  | _ => false
  end.

(** What a statement [m] of the loop body guarantees from worlds that
    satisfy [P]: [Q] when it goes on with a value, [R] when it continues
    with the next turn, [E] when it ends the loop. *)
Definition triple {A} (R : World -> Prop) (E : ending -> World -> Prop)
    (P : World -> Prop) (m : io A) (Q : A -> World -> Prop) : Prop :=
  forall w, P w ->
    match m w with
    | (Value a, w') => Q a w'
    | (Continue, w') => R w'
    | (Halt why, w') => E why w'
    end.

(** A property of the library, of the files and of the lines still to
    read. *)
Definition on_world (L : Library -> Prop) (F : FileSystem -> Prop)
    (S : list str -> Prop) (w : World) : Prop :=
  L (library w) /\ F (files w) /\ S (stdin w).

(** A line that is not a choice of one of the two loaders. *)
Definition no_load (line : str) : bool :=
  negb (str_eqb line (lit "7")) && negb (str_eqb line (lit "9")).

(** A line that is not a choice of one of the two methods that write a
    file. *)
Definition no_save (line : str) : bool :=
  negb (str_eqb line (lit "6")) && negb (str_eqb line (lit "8")).

(** A line that is not a choice of a method that opens a file. *)
Definition no_file (line : str) : bool := no_load line && no_save line.

(** The lines that [print_numbered] prints. *)
Fixpoint numbered (idx : Z) (bs : list Book) : list str :=
  match bs with
  | [] => []
  | book :: bs' => (str_of_Z idx ++ lit ". " ++ Book_repr book) :: numbered (idx + 1) bs'
  end.

(** A library in which the methods other than [load_from_json] keep
    working: a catalogue with unique ids below [next_id]. *)
Definition sound (self : Library) : Prop :=
  catalogue self = true /\ ids_unique_below self.

(** [main] ended by [break] or for want of input. *)
Definition quiet (why : ending) : Prop := why = Break \/ why = EOFError.

End Program.

Arguments Value {A} a.
Arguments Continue {A}.
Arguments Halt {A} why.

(** ** Sample data *)

(** The interpreter of the closed examples: its Unicode database has no
    digit beyond ASCII and its limit on numerals is the default.  The
    examples hold ASCII and Cyrillic letters only and print no float and
    no container; each is first proved for every interpreter. *)
Definition basic_interpreter : Interpreter :=
  {| unicode_isdigit := fun _ => false;
     unicode_todecimal := fun _ => None;
     repr := fun _ => Ok [];
     int_max_str_digits := 4300 |}.

Definition dune : Book :=
  {| _title := lit "Dune"; _author := lit "Frank Herbert"; _year := Int 1965;
     _id := Some (Int 1); _status := Some STATUS_YES |}.

Definition foundation : Book :=
  {| _title := lit "Foundation"; _author := lit "Isaac Asimov"; _year := Int 1951;
     _id := Some (Int 2); _status := Some STATUS_YES |}.


Definition one_book : Library := {| books := [dune]; next_id := VInt (Int 2) |}.

Definition two_books : Library :=
  {| books := [dune; foundation]; next_id := VInt (Int 3) |}.


(** No file, and no path that the platform refuses. *)
Definition no_files : FileSystem :=
  {| text_files := ∅; json_files := ∅;
     unreadable := fun _ => None; unwritable := fun _ => None |}.

(** A text of the given lines, each ended by a line break. *)
Definition text_of (lines : list str) : str :=
  concat (map (fun line => line ++ [NL]) lines).

(** [lib.txt]: a header and a line without delimiter. *)
Definition broken_text : FileSystem :=
  {| text_files := {[ lit "lib.txt" := text_of [lit "7"; lit "no delimiter"] ]};
     json_files := ∅;
     unreadable := fun _ => None; unwritable := fun _ => None |}.

(** [lib.json]: a document whose [books] is a number. *)
Definition broken_json : FileSystem :=
  {| text_files := ∅;
     json_files := {[ lit "lib.json" :=
       Document (VDict [ (lit "next_id", VInt (Int 7));
                         (lit "books", VInt (Int 0)) ]) ]};
     unreadable := fun _ => None; unwritable := fun _ => None |}.

(** [lib.txt]: two lines with the id 5 under the header 1. *)
Definition repeated_id : FileSystem :=
  {| text_files := {[ lit "lib.txt" :=
       text_of [ lit "1"; lit "5|Dune|Frank Herbert|1965|в наличии";
                 lit "5|Foundation|Isaac Asimov|1951|выдана" ] ]};
     json_files := ∅;
     unreadable := fun _ => None; unwritable := fun _ => None |}.

Definition twice_five : Library :=
  {| books := [ with_id dune (Some (Int 5));
                with_status (with_id foundation (Some (Int 5))) (Some STATUS_NO) ];
     next_id := VInt (Int 1) |}.

(** [dune] as [from_dict] makes it of a dict whose status is null. *)
Definition unlisted : Book := with_status dune None.

Definition null_status : Library :=
  {| books := [unlisted]; next_id := VInt (Int 2) |}.

(** [lib.json]: a document with one book, whose status is null. *)
Definition null_status_json : FileSystem :=
  {| text_files := ∅;
     json_files := {[ lit "lib.json" :=
       Document (VDict [ (lit "next_id", VInt (Int 2));
                         (lit "books", VList [to_dict unlisted]) ]) ]};
     unreadable := fun _ => None; unwritable := fun _ => None |}.

Definition null_next_id : Library := {| books := []; next_id := VNone |}.

(** [lib.json]: a document without books, whose [next_id] is null. *)
Definition null_next_id_json : FileSystem :=
  {| text_files := ∅;
     json_files := {[ lit "lib.json" :=
       Document (VDict [ (lit "next_id", VNone); (lit "books", VList []) ]) ]};
     unreadable := fun _ => None; unwritable := fun _ => None |}.


(** What is typed to add [dune] and leave. *)
Definition add_dune_and_leave : list str :=
  [lit "1"; lit "Dune"; lit "Frank Herbert"; lit "1965"; lit "10"].

(** [main] about to read the choice 9 and the name [lib], with
    [broken_text] for files. *)
Definition before_add_dune : World :=
  {| library := Library_init; files := no_files; stdin := add_dune_and_leave;
     stdout := [] |}.

Definition before_bad_load : World :=
  {| library := one_book; files := broken_text; stdin := [lit "9"; lit "lib"];
     stdout := [] |}.

Section Properties.
Context {interp : Interpreter}.

Ltac run := unfold bind, lift, read, assign, ret, set_books, set_next_id in *; simpl in *.

Lemma str_eqb_eq (a b : str) : str_eqb a b = true <-> a = b.
Proof. unfold str_eqb. apply bool_decide_eq_true. Qed.

Lemma status_setter_YES (book : Book) :
  status_setter book (VStr STATUS_YES) = Ok (with_status book (Some STATUS_YES)).
Proof. reflexivity. Qed.

Lemma status_setter_NO (book : Book) :
  status_setter book (VStr STATUS_NO) = Ok (with_status book (Some STATUS_NO)).
Proof. reflexivity. Qed.

Lemma Book_init_valid (title author : str) (year : pyint) :
  isdigit author = false ->
  Book_init (VStr title) (VStr author) (VInt year)
  = Ok {| _title := title; _author := author; _year := year;
          _id := None; _status := None |}.
Proof. intros H. unfold Book_init. simpl. rewrite H. reflexivity. Qed.

(** [add_book] with an integer [next_id], by what the constructor does. *)
Lemma add_book_run (self : Library) (title author year : pyval) :
  match Book_init title author year with
  | Ok book =>
    forall n, next_id self = VInt n ->
      add_book title author year self
      = (Ok (with_status (with_id book (Some n)) (Some STATUS_YES)),
         {| books := books self
                     ++ [with_status (with_id book (Some n)) (Some STATUS_YES)];
            next_id := VInt (Int (int_value n + 1)) |})
  | Raise e => add_book title author year self = (Raise e, self)
  end.
Proof.
  unfold add_book. run. destruct (Book_init title author year) as [book|e].
  - intros n Hn. rewrite Hn. reflexivity.
  - reflexivity.
Qed.

(** C3: with an integer [next_id], [add_book] on a string title, a string
    author that [isdigit] rejects and an integer year returns a book whose
    id is the [next_id] before the call and whose status is [STATUS_YES],
    puts it at the end of [books] and adds one to [next_id]. *)
Theorem add_book_valid (self : Library) (title author : str) (year n : pyint) :
  next_id self = VInt n ->
  isdigit author = false ->
  add_book (VStr title) (VStr author) (VInt year) self
  = (Ok {| _title := title; _author := author; _year := year;
           _id := Some n; _status := Some STATUS_YES |},
     {| books := books self
                 ++ [ {| _title := title; _author := author; _year := year;
                         _id := Some n; _status := Some STATUS_YES |} ];
        next_id := VInt (Int (int_value n + 1)) |}).
Proof.
  intros Hn Hauthor.
  pose proof (add_book_run self (VStr title) (VStr author) (VInt year)) as Hrun.
  rewrite (Book_init_valid _ _ _ Hauthor) in Hrun. exact (Hrun n Hn).
Qed.

(** C4: when the title is not a string, the author is not a string or
    is made of digits only, or the year is not an integer, [add_book]
    raises the [ValueError] of the constructor and leaves [books] and
    [next_id] as they were. *)
Theorem add_book_invalid (self : Library) (title author year : pyval) :
  isinstance_str title = false \/ isinstance_str author = false
  \/ all_digits author = true \/ isinstance_int year = false ->
  add_book title author year self = (Raise ValueError, self).
Proof.
  intros H. unfold add_book. run.
  assert (Hinit : Book_init title author year = Raise ValueError).
  { unfold Book_init. destruct title; simpl; try reflexivity.
    all: destruct author; simpl; try reflexivity.
    all: try (destruct H as [H | [H | [H | H]]]; simpl in H; discriminate).
    destruct (isdigit s0) eqn:Hd; simpl; try reflexivity.
    destruct year; simpl; try reflexivity.
    destruct H as [H | [H | [H | H]]]; simpl in H; congruence. }
  rewrite Hinit. reflexivity.
Qed.

(** X1: what [add_book] does when [next_id] is [None], as [load_from_json]
    can leave it: the book is in [books] when the addition raises. *)
Remark add_book_without_next_id (self : Library) (title author : str) (year : pyint) :
  next_id self = VNone ->
  isdigit author = false ->
  add_book (VStr title) (VStr author) (VInt year) self
  = (Raise TypeError,
     {| books := books self
                 ++ [ {| _title := title; _author := author; _year := year;
                         _id := None; _status := Some STATUS_YES |} ];
        next_id := VNone |}).
Proof.
  intros Hn Hauthor. unfold add_book. run.
  rewrite (Book_init_valid _ _ _ Hauthor), Hn. reflexivity.
Qed.


Lemma find_books_loop (P : Book -> bool) (bs acc : list Book) :
  fold_left (fun result book => if P book then result ++ [book] else result) bs acc
  = acc ++ List.filter P bs.
Proof.
  revert acc. induction bs as [|book bs IH]; intros acc; simpl.
  - symmetry. apply app_nil_r.
  - rewrite IH. destruct (P book); [|reflexivity].
    rewrite <- app_assoc. reflexivity.
Qed.

Lemma matches_str (criterion : option str) (field : str) :
  matches str_eqb criterion field = true
  <-> match criterion with Some x => field = x | None => True end.
Proof. destruct criterion; simpl; [apply str_eqb_eq | tauto]. Qed.

Lemma matches_int (criterion : option pyint) (field : pyint) :
  matches int_eqb criterion field = true
  <-> match criterion with
      | Some x => int_value field = int_value x
      | None => True
      end.
Proof. destruct criterion; simpl; [apply Z.eqb_eq | tauto]. Qed.

Lemma filter_agrees (P : Book -> bool) (Q : Book -> Prop) `{forall b, Decision (Q b)}
    (bs : list Book) :
  (forall b, P b = true <-> Q b) -> List.filter P bs = filter Q bs.
Proof.
  intros HPQ. induction bs as [|b bs IH]; [reflexivity|].
  simpl. rewrite filter_cons, IH.
  destruct (P b) eqn:HP; destruct (decide (Q b)) as [HQ|HQ]; try reflexivity.
  - apply HPQ in HP. contradiction.
  - apply HPQ in HQ. congruence.
Qed.

(** C7: [find_books] without a criterion returns [books] as it stands,
    and with any criteria the books that agree with each one supplied,
    in the order of [books]. *)
Theorem find_books_filter (self : Library) :
  find_books None None None self = books self
  /\ forall (title author : option str) (year : option pyint),
       find_books title author year self
       = filter (agrees title author year) (books self).
Proof.
  assert (Hall : forall title author year,
            find_books title author year self
            = filter (agrees title author year) (books self)).
  { intros title author year. unfold find_books.
    rewrite find_books_loop. simpl. apply filter_agrees.
    intros b. unfold agrees.
    rewrite !andb_true_iff, !matches_str, matches_int. tauto. }
  split; [|exact Hall].
  rewrite Hall. clear Hall. induction (books self) as [|b bs IH]; [reflexivity|].
  rewrite filter_cons. destruct (decide _) as [_|Hn].
  - f_equal. exact IH.
  - exfalso. apply Hn. repeat split.
Qed.


(** *** [change_status] *)

Lemma change_status_loop_absent (bs : list Book) (book_id : pyint) :
  find (has_id book_id) bs = None -> change_status_loop bs book_id = Ok None.
Proof.
  induction bs as [|book bs IH]; simpl; [reflexivity|].
  unfold has_id at 1. destruct (id_eqb (_id book) book_id); [discriminate|].
  intros H. rewrite (IH H). reflexivity.
Qed.

Lemma with_status_back (book : Book) (s s' : str) :
  _status book = Some s ->
  with_status (with_status book (Some s')) (Some s) = book.
Proof. destruct book; simpl; intros ->; reflexivity. Qed.

Lemma change_status_loop_present (bs : list Book) (book_id : pyint) (book : Book) :
  find (has_id book_id) bs = Some book ->
  _status book = Some STATUS_YES \/ _status book = Some STATUS_NO ->
  exists bs',
    change_status_loop bs book_id = Ok (Some bs')
    /\ find (has_id book_id) bs' = Some (with_status book (Some (other_status book)))
    /\ change_status_loop bs' book_id = Ok (Some bs).
Proof.
  induction bs as [|b bs IH]; simpl; [discriminate|].
  unfold has_id at 1. destruct (id_eqb (_id b) book_id) eqn:Hid.
  - intros [= ->] Hstatus. unfold other_status, status_is.
    destruct Hstatus as [Hs | Hs]; rewrite Hs.
    + exists (with_status book (Some STATUS_NO) :: bs). simpl.
      unfold has_id. simpl. rewrite Hid. simpl.
      rewrite (with_status_back _ _ _ Hs). repeat split.
    + exists (with_status book (Some STATUS_YES) :: bs). simpl.
      unfold has_id. simpl. rewrite Hid. simpl.
      rewrite (with_status_back _ _ _ Hs). repeat split.
  - intros Hfind Hstatus. destruct (IH Hfind Hstatus) as (bs' & H1 & H2 & H3).
    exists (b :: bs'). simpl. unfold has_id at 1.
    rewrite Hid, H1, H2, H3. repeat split.
Qed.

(** C8: for an id that a book of the library has, whose status is one of
    the two statuses, [change_status] returns [True] and gives the first
    such book the other status, and a second call returns [True] and
    leaves the library as it was before the first; for an id that no
    book has, it returns [False] and the library is unchanged. *)
Theorem change_status_twice (self : Library) (book_id : pyint) :
  (forall book : Book,
     find (has_id book_id) (books self) = Some book ->
     _status book = Some STATUS_YES \/ _status book = Some STATUS_NO ->
     exists self',
       change_status book_id self = (Ok true, self')
       /\ find (has_id book_id) (books self')
          = Some (with_status book (Some (other_status book)))
       /\ next_id self' = next_id self
       /\ change_status book_id self' = (Ok true, self))
  /\ (find (has_id book_id) (books self) = None ->
      change_status book_id self = (Ok false, self)).
Proof.
  split.
  - intros book Hfind Hstatus.
    destruct (change_status_loop_present _ _ _ Hfind Hstatus) as (bs' & H1 & H2 & H3).
    exists (set_books bs' self). unfold change_status. run.
    rewrite H1, H3. simpl. destruct self. repeat split. exact H2.
  - intros Hfind. unfold change_status. run.
    rewrite (change_status_loop_absent _ _ Hfind). reflexivity.
Qed.

(** *** Ids *)

Lemma issued_from (calls : list call) (self : Library) (n : pyint) :
  next_id self = VInt n ->
  issued calls self
  = match List.filter valid_add calls with
    | [] => []
    | _ :: rest => Some n :: ids_from (int_value n + 1) (length rest)
    end.
Proof.
  revert self n. induction calls as [|c calls IH]; intros self n Hn; [reflexivity|].
  destruct c as [title author year | book_id]; simpl.
  - pose proof (add_book_run self title author year) as Hrun.
    destruct (Book_init title author year) as [book|e].
    + rewrite (Hrun n Hn). simpl. f_equal.
      erewrite IH by reflexivity. simpl.
      destruct (List.filter valid_add calls) as [|c rest]; [reflexivity|].
      simpl. unfold ids_from. simpl. f_equal; [f_equal; f_equal; lia|].
      rewrite <- seq_shift, map_map. apply map_ext. intros k.
      f_equal. f_equal. lia.
    + rewrite Hrun. apply (IH self n Hn).
  - apply IH. exact Hn.
Qed.

Lemma ids_from_NoDup (first : Z) (count : nat) : NoDup (ids_from first count).
Proof.
  unfold ids_from. apply NoDup_fmap_2_strong; [|apply NoDup_seq].
  intros j k _ _ [= H]. lia.
Qed.

(** C6: from the empty library, the calls of [add_book] that succeed
    among any calls of [add_book] and [remove_book] return the ids 1, 2,
    3, ... in this order, one for each call with valid arguments; so no
    id is returned twice, whatever was removed in between. *)
Theorem issued_ids (calls : list call) :
  issued calls Library_init = ids_from 1 (length (List.filter valid_add calls))
  /\ NoDup (issued calls Library_init).
Proof.
  assert (H : issued calls Library_init
              = ids_from 1 (length (List.filter valid_add calls))).
  { rewrite (issued_from calls Library_init (Int 1) eq_refl).
    destruct (List.filter valid_add calls) as [|c rest]; [reflexivity|].
    simpl. unfold ids_from. simpl. f_equal.
    rewrite <- seq_shift, map_map. apply map_ext. intros k.
    f_equal. f_equal. lia. }
  split; [exact H|]. rewrite H. apply ids_from_NoDup.
Qed.

Lemma ids_unique_below_init : ids_unique_below Library_init.
Proof.
  exists (Int 1). split; [reflexivity|]. split; [apply NoDup_nil_2 | apply Forall_nil_2].
Qed.

Lemma ids_unique_below_add (self : Library) (title author year : pyval) :
  ids_unique_below self -> ids_unique_below (snd (add_book title author year self)).
Proof.
  intros (n & Hn & Hdup & Hlt).
  pose proof (add_book_run self title author year) as Hrun.
  destruct (Book_init title author year) as [book|e].
  - rewrite (Hrun n Hn). simpl. exists (Int (int_value n + 1)).
    split; [reflexivity|]. unfold id_values in *. simpl.
    rewrite map_app. simpl. split.
    + apply NoDup_app. split; [exact Hdup|]. split; [|apply NoDup_singleton].
      intros x Hx Hx'. apply list_elem_of_singleton in Hx'. subst x.
      rewrite Forall_forall in Hlt.
      destruct (Hlt _ Hx) as (z & [= <-] & Hz). lia.
    + apply Forall_app. split.
      * eapply Forall_impl; [exact Hlt|]. simpl.
        intros x (z & -> & Hz). exists z. split; [reflexivity|lia].
      * apply Forall_cons_2; [|apply Forall_nil_2].
        exists (int_value n). split; [reflexivity|lia].
  - rewrite Hrun. simpl. exists n. auto.
Qed.

Lemma ids_unique_below_remove (self : Library) (book_id : pyint) :
  ids_unique_below self -> ids_unique_below (snd (remove_book book_id self)).
Proof.
  intros (n & Hn & Hdup & Hlt). exists n. unfold remove_book. run.
  split; [exact Hn|]. unfold id_values in *. simpl.
  induction (books self) as [|book bs IH]; simpl; [auto|].
  simpl in Hdup, Hlt. apply NoDup_cons in Hdup. destruct Hdup as [Hnotin Hdup].
  apply Forall_cons in Hlt. destruct Hlt as [Hbook Hlt].
  destruct (IH Hdup Hlt) as [IH1 IH2].
  destruct (negb (id_eqb (_id book) book_id)); simpl; [|auto].
  split; [|apply Forall_cons_2; assumption].
  apply NoDup_cons_2; [|exact IH1].
  intros Hin. apply Hnotin. clear -Hin.
  induction bs as [|b bs IHbs]; simpl in *; [exact Hin|].
  destruct (negb (id_eqb (_id b) book_id)); simpl in *.
  - apply elem_of_cons in Hin. apply elem_of_cons. tauto.
  - apply elem_of_cons. right. auto.
Qed.

Lemma change_status_loop_ids (bs bs' : list Book) (book_id : pyint) :
  change_status_loop bs book_id = Ok (Some bs') -> map _id bs' = map _id bs.
Proof.
  revert bs'. induction bs as [|book bs IH]; intros bs'; simpl; [discriminate|].
  destruct (id_eqb (_id book) book_id).
  - destruct (status_is book STATUS_YES); [intros [= <-]; reflexivity|].
    destruct (status_is book STATUS_NO); [intros [= <-]; reflexivity|discriminate].
  - destruct (change_status_loop bs book_id) as [[bs0|]|e]; simpl; try discriminate.
    intros [= <-]. simpl. f_equal. apply IH. reflexivity.
Qed.

Lemma ids_unique_below_change_status (self : Library) (book_id : pyint) :
  ids_unique_below self -> ids_unique_below (snd (change_status book_id self)).
Proof.
  intros Hinv. unfold change_status. run.
  destruct (change_status_loop (books self) book_id) as [[bs'|]|e] eqn:Hloop;
    simpl; try exact Hinv.
  destruct Hinv as (n & Hn & Hdup & Hlt). exists n. split; [exact Hn|].
  unfold id_values in *. simpl.
  assert (Heq : map (fun book => option_map int_value (_id book)) bs'
                = map (fun book => option_map int_value (_id book)) (books self)).
  { rewrite <- (map_map _id (option_map int_value)),
            <- (map_map _id (option_map int_value) (books self)).
    f_equal. eapply change_status_loop_ids. exact Hloop. }
  rewrite Heq. auto.
Qed.

(** *** [int] of [str] of an integer *)













(** *** Valid books

    The books of a library are valid whatever calls built it, so the
    libraries of valid books are the libraries that the program can hold. *)

Lemma Book_init_ok (title author year : pyval) (book : Book) :
  Book_init title author year = Ok book -> valid_book book = true.
Proof.
  unfold Book_init, valid_book.
  destruct title; simpl; try discriminate.
  destruct author; simpl; try discriminate.
  destruct (isdigit s0) eqn:Hd; simpl; try discriminate.
  destruct year; simpl; try discriminate.
  intros [= <-]. simpl. rewrite Hd. reflexivity.
Qed.

Lemma id_setter_ok (book book' : Book) (value : pyval) :
  id_setter book value = Ok book' -> valid_book book = true -> valid_book book' = true.
Proof.
  unfold id_setter. destruct value; try discriminate; intros [= <-]; auto.
Qed.

Lemma status_setter_ok (book book' : Book) (value : pyval) :
  status_setter book value = Ok book' -> valid_book book = true ->
  valid_book book' = true.
Proof.
  unfold status_setter, valid_book. destruct value; try discriminate.
  - intros [= <-]. simpl. rewrite !andb_true_iff. tauto.
  - destruct (str_eqb s STATUS_YES || str_eqb s STATUS_NO) eqn:Hs; [|discriminate].
    intros [= <-]. simpl. rewrite !andb_true_iff. tauto.
Qed.

Lemma from_dict_ok (data : pyval) (book : Book) :
  from_dict data = Ok book -> valid_book book = true.
Proof.
  unfold from_dict.
  destruct (getitem data (lit "title")) as [title|]; [|discriminate].
  destruct (getitem data (lit "author")) as [author|]; [|discriminate].
  destruct (getitem data (lit "year")) as [year|]; [|discriminate].
  cbn [rbind]. destruct (Book_init title author year) as [b0|] eqn:H0; [|discriminate].
  cbn [rbind]. destruct (getitem data (lit "id")) as [id|]; [|discriminate].
  cbn [rbind]. destruct (id_setter b0 id) as [b1|] eqn:H1; [|discriminate].
  cbn [rbind]. destruct (getitem data (lit "status")) as [status|]; [|discriminate].
  cbn [rbind]. destruct (status_setter b1 status) as [b2|] eqn:H2; [|discriminate].
  intros [= <-]. eauto using Book_init_ok, id_setter_ok, status_setter_ok.
Qed.

Lemma book_of_line_ok (line : str) (book : Book) :
  book_of_line line = Ok book -> valid_book book = true.
Proof.
  unfold book_of_line. set (parts := split PIPE (strip line)).
  destruct (list_getitem parts 1) as [title|]; [|discriminate].
  destruct (list_getitem parts 2) as [author|]; [|discriminate].
  destruct (list_getitem parts 3) as [year|]; [|discriminate].
  cbn [rbind]. destruct (int_of_str year) as [y|]; [|discriminate].
  cbn [rbind].
  destruct (Book_init (VStr title) (VStr author) (VInt (Int y))) as [b0|] eqn:H0;
    [|discriminate].
  cbn [rbind]. destruct (list_getitem parts 0) as [id|]; [|discriminate].
  cbn [rbind]. destruct (int_of_str id) as [i|]; [|discriminate].
  cbn [rbind]. destruct (id_setter b0 (VInt (Int i))) as [b1|] eqn:H1; [|discriminate].
  cbn [rbind]. destruct (list_getitem parts 4) as [status|]; [|discriminate].
  cbn [rbind]. destruct (status_setter b1 (VStr status)) as [b2|] eqn:H2; [|discriminate].
  intros [= <-]. eauto using Book_init_ok, id_setter_ok, status_setter_ok.
Qed.

Lemma comprehension_ok {A} (f : A -> result Book) (l : list A) (bs : list Book) :
  (forall x book, f x = Ok book -> valid_book book = true) ->
  comprehension f l = Ok bs -> forallb valid_book bs = true.
Proof.
  intros Hf. revert bs. induction l as [|x l IH]; intros bs; simpl.
  - intros [= <-]. reflexivity.
  - destruct (f x) as [book|] eqn:Hx; [|discriminate]. cbn [rbind].
    destruct (comprehension f l) as [bs'|]; [|discriminate]. cbn [rbind].
    intros [= <-]. simpl. rewrite (Hf _ _ Hx), (IH _ eq_refl). reflexivity.
Qed.

Lemma valid_books_add (self : Library) (title author year : pyval) :
  valid_books self = true ->
  valid_books (snd (add_book title author year self)) = true.
Proof.
  intros Hvalid. unfold add_book. run.
  destruct (Book_init title author year) as [book|] eqn:Hinit; [|exact Hvalid].
  apply Book_init_ok in Hinit. unfold valid_books in *.
  destruct (next_id self); simpl; try exact Hvalid.
  all: rewrite forallb_app, Hvalid; simpl; rewrite andb_true_r.
  all: unfold valid_book in *; simpl; rewrite andb_true_iff in *; tauto.
Qed.

Lemma valid_books_remove (self : Library) (book_id : pyint) :
  valid_books self = true -> valid_books (snd (remove_book book_id self)) = true.
Proof.
  unfold remove_book, valid_books. run. rewrite !forallb_forall.
  intros Hvalid book Hin. apply List.filter_In in Hin. apply Hvalid. tauto.
Qed.

Lemma change_status_loop_ok (bs bs' : list Book) (book_id : pyint) :
  change_status_loop bs book_id = Ok (Some bs') ->
  forallb valid_book bs = true -> forallb valid_book bs' = true.
Proof.
  revert bs'. induction bs as [|book bs IH]; intros bs'; simpl; [discriminate|].
  rewrite andb_true_iff.
  destruct (id_eqb (_id book) book_id).
  - destruct (status_is book STATUS_YES);
      [|destruct (status_is book STATUS_NO); [|discriminate]].
    all: intros [= <-] [Hbook Hbs]; simpl; rewrite Hbs, andb_true_r.
    + exact (status_setter_ok _ _ _ (status_setter_NO book) Hbook).
    + exact (status_setter_ok _ _ _ (status_setter_YES book) Hbook).
  - destruct (change_status_loop bs book_id) as [[bs0|]|]; simpl; try discriminate.
    intros [= <-] [Hbook Hbs]. simpl. rewrite Hbook, (IH _ eq_refl Hbs). reflexivity.
Qed.

Lemma valid_books_change_status (self : Library) (book_id : pyint) :
  valid_books self = true -> valid_books (snd (change_status book_id self)) = true.
Proof.
  intros Hvalid. unfold change_status. run.
  destruct (change_status_loop (books self) book_id) as [[bs'|]|] eqn:Hloop;
    simpl; try exact Hvalid.
  eapply change_status_loop_ok; eassumption.
Qed.

Lemma valid_books_load_lines (lines : list str) (self : Library) :
  valid_books self = true -> valid_books (snd (load_lines lines self)) = true.
Proof.
  revert self. induction lines as [|line lines IH]; intros self Hvalid; [exact Hvalid|].
  cbn [load_lines]. unfold bind at 1, lift at 1.
  destruct (book_of_line line) as [book|] eqn:Hline; [|exact Hvalid].
  unfold bind at 1, assign at 1. apply IH. unfold valid_books, set_books in *. simpl.
  rewrite forallb_app, Hvalid. simpl. rewrite (book_of_line_ok _ _ Hline). reflexivity.
Qed.

Lemma valid_books_load_from_text (fs : FileSystem) (filename : str) (self : Library) :
  valid_books self = true ->
  valid_books (snd (load_from_text fs filename self)) = true.
Proof.
  intros Hvalid. unfold load_from_text.
  destruct (text_files fs !! (filename ++ lit ".txt")) as [text|]; [|exact Hvalid].
  cbv zeta. unfold bind at 1, lift at 1.
  destruct (header (readlines (universal_newlines text))) as [n|]; [|exact Hvalid].
  unfold bind at 1, assign at 1. unfold bind at 1, assign at 1.
  apply valid_books_load_lines. reflexivity.
Qed.

Lemma valid_books_load_from_json (fs : FileSystem) (filename : str) (self : Library) :
  valid_books self = true ->
  valid_books (snd (load_from_json fs filename self)) = true.
Proof.
  intros Hvalid. unfold load_from_json.
  destruct (json_files fs !! (filename ++ lit ".json")) as [[|data]|];
    try exact Hvalid.
  unfold bind at 1, lift at 1.
  destruct (getitem data (lit "next_id")) as [n|]; [|exact Hvalid].
  unfold bind at 1, assign at 1. unfold bind at 1, lift at 1.
  destruct (getitem data (lit "books")) as [l|]; [|exact Hvalid]. cbn [rbind].
  destruct (iterate l) as [items|]; [|exact Hvalid]. cbn [rbind].
  destruct (comprehension from_dict items) as [bs|] eqn:Hbs; [|exact Hvalid].
  unfold assign, valid_books. simpl.
  eapply comprehension_ok; [|exact Hbs]. apply from_dict_ok.
Qed.

(** X2: the books of [Library()] are valid, and every method leaves valid
    books, whatever it returns or raises. *)
Proposition valid_books_preserved (self : Library) :
  valid_books Library_init = true
  /\ (valid_books self = true ->
      (forall title author year,
         valid_books (snd (add_book title author year self)) = true)
      /\ (forall book_id, valid_books (snd (remove_book book_id self)) = true)
      /\ (forall book_id, valid_books (snd (change_status book_id self)) = true)
      /\ (forall fs filename,
            valid_books (snd (load_from_json fs filename self)) = true)
      /\ (forall fs filename,
            valid_books (snd (load_from_text fs filename self)) = true)).
Proof.
  split; [reflexivity|]. intros Hvalid.
  repeat split; intros;
    auto using valid_books_add, valid_books_remove, valid_books_change_status,
               valid_books_load_from_json, valid_books_load_from_text.
Qed.

(** *** The JSON document of a library *)




(** *** The text of a library *)

























(** *** A loader that fails *)

Lemma load_lines_raise (lines : list str) (self self' : Library) (e : exn) :
  load_lines lines self = (Raise e, self') ->
  exists (k : nat) (line : str) (bs : list Book),
    nth_error lines k = Some line
    /\ comprehension book_of_line (take k lines) = Ok bs
    /\ book_of_line line = Raise e
    /\ self' = set_books (books self ++ bs) self.
Proof.
  revert self. induction lines as [|line lines IH]; intros self; [discriminate|].
  cbn [load_lines]. unfold bind at 1, lift at 1.
  destruct (book_of_line line) as [book|e0] eqn:Hline.
  - unfold bind at 1, assign at 1. intros Hrest.
    destruct (IH _ Hrest) as (k & line' & bs & Hk & Hbs & Hraise & ->).
    exists (S k), line', (book :: bs). cbn [nth_error take comprehension].
    rewrite Hline, Hbs. repeat split; try assumption.
    unfold set_books. cbn. rewrite <- app_assoc. reflexivity.
  - intros [= <- <-]. exists 0%nat, line, []. cbn [nth_error take comprehension].
    repeat split; try assumption.
    unfold set_books. rewrite app_nil_r. destruct self. reflexivity.
Qed.

(** C1, as the program has it: a loader that fails before it has read
    [next_id] from the file (no such file, a document that does not
    parse or has no [next_id], no first line or one that is not an
    integer) leaves the library as it was.  When it fails later,
    [next_id] is the value of the file; [load_from_json] leaves [books] as
    they were, [load_from_text] leaves the books of the lines before the
    one it fails on. *)
Theorem load_failure_state (fs : FileSystem) (filename : str)
    (self self' : Library) (e : exn) :
  (load_from_json fs filename self = (Raise e, self') ->
   match json_files fs !! (filename ++ lit ".json") with
   | Some (Document data) =>
     match getitem data (lit "next_id") with
     | Ok n => self' = {| books := books self; next_id := n |}
     | Raise _ => self' = self
     end
   | _ => self' = self
   end)
  /\ (load_from_text fs filename self = (Raise e, self') ->
      match text_files fs !! (filename ++ lit ".txt") with
      | Some text =>
        let lines := readlines (universal_newlines text) in
        match header lines with
        | Ok n =>
          exists (k : nat) (line : str) (bs : list Book),
            nth_error (tl lines) k = Some line
            /\ comprehension book_of_line (take k (tl lines)) = Ok bs
            /\ book_of_line line = Raise e
            /\ self' = {| books := bs; next_id := VInt (Int n) |}
        | Raise _ => self' = self
        end
      | None => self' = self
      end).
Proof.
  split.
  - unfold load_from_json.
    destruct (json_files fs !! (filename ++ lit ".json")) as [[|data]|];
      try (intros [= _ <-]; reflexivity).
    unfold bind at 1, lift at 1.
    destruct (getitem data (lit "next_id")) as [n|e0]; [|intros [= _ <-]; reflexivity].
    unfold bind at 1, assign at 1. unfold bind at 1, lift at 1.
    destruct (let* l := getitem data (lit "books") in
              let* l0 := iterate l in comprehension from_dict l0) as [bs|e0].
    + discriminate.
    + intros [= _ <-]. reflexivity.
  - unfold load_from_text.
    destruct (text_files fs !! (filename ++ lit ".txt")) as [text|];
      [|intros [= _ <-]; reflexivity].
    cbv zeta. unfold bind at 1, lift at 1.
    destruct (header (readlines (universal_newlines text))) as [n|e0];
      [|intros [= _ <-]; reflexivity].
    unfold bind at 1, assign at 1. unfold bind at 1, assign at 1.
    intros Hlines. apply load_lines_raise in Hlines.
    destruct Hlines as (k & line & bs & Hk & Hbs & Hraise & ->).
    exists k, line, bs. repeat split; assumption.
Qed.

(** *** A loader that succeeds *)

Lemma load_lines_ok (lines : list str) (self self' : Library) :
  load_lines lines self = (Ok tt, self') <->
  exists bs, comprehension book_of_line lines = Ok bs
             /\ self' = set_books (books self ++ bs) self.
Proof.
  revert self. induction lines as [|line lines IH]; intros self.
  - cbn. split.
    + intros [= <-]. exists []. rewrite app_nil_r. destruct self. auto.
    + intros (bs & [= <-] & ->). rewrite app_nil_r. destruct self. reflexivity.
  - cbn [load_lines comprehension]. unfold bind at 1, lift at 1.
    destruct (book_of_line line) as [book|e]; cbn [rbind].
    + unfold bind at 1, assign at 1. rewrite IH. unfold set_books. cbn. split.
      * intros (bs & -> & ->). exists (book :: bs). rewrite <- app_assoc. auto.
      * intros (bs & Hbs & ->).
        destruct (comprehension book_of_line lines) as [bs'|]; [|discriminate].
        injection Hbs as <-. exists bs'. rewrite <- app_assoc. auto.
    + split; [discriminate | intros (bs & [=] & _)].
Qed.

(** What a loader that succeeds leaves: the books of the lines, or of
    the document, and the [next_id] of the file. *)
Lemma load_from_text_ok (fs : FileSystem) (filename : str) (self self' : Library) :
  load_from_text fs filename self = (Ok tt, self') ->
  exists (text : str) (n : Z) (bs : list Book),
    text_files fs !! (filename ++ lit ".txt") = Some text
    /\ header (readlines (universal_newlines text)) = Ok n
    /\ comprehension book_of_line (tl (readlines (universal_newlines text))) = Ok bs
    /\ self' = {| books := bs; next_id := VInt (Int n) |}.
Proof.
  unfold load_from_text.
  destruct (text_files fs !! (filename ++ lit ".txt")) as [text|]; [|discriminate].
  cbv zeta. unfold bind at 1, lift at 1.
  destruct (header (readlines (universal_newlines text))) as [n|] eqn:Hn;
    [|discriminate].
  unfold bind at 1, assign at 1. unfold bind at 1, assign at 1.
  rewrite load_lines_ok. intros (bs & Hbs & ->). exists text, n, bs.
  repeat split; try assumption; reflexivity.
Qed.

Lemma load_from_json_ok (fs : FileSystem) (filename : str) (self self' : Library) :
  load_from_json fs filename self = (Ok tt, self') ->
  exists (data v l : pyval) (items : list pyval) (bs : list Book),
    json_files fs !! (filename ++ lit ".json") = Some (Document data)
    /\ getitem data (lit "next_id") = Ok v
    /\ getitem data (lit "books") = Ok l
    /\ iterate l = Ok items
    /\ comprehension from_dict items = Ok bs
    /\ self' = {| books := bs; next_id := v |}.
Proof.
  unfold load_from_json.
  destruct (json_files fs !! (filename ++ lit ".json")) as [[|data]|];
    try discriminate.
  unfold bind at 1, lift at 1.
  destruct (getitem data (lit "next_id")) as [v|] eqn:Hv; [|discriminate].
  unfold bind at 1, assign at 1. unfold bind, lift.
  destruct (getitem data (lit "books")) as [l|] eqn:Hl; [|discriminate]. cbn [rbind].
  destruct (iterate l) as [items|] eqn:Hitems; [|discriminate]. cbn [rbind].
  destruct (comprehension from_dict items) as [bs|] eqn:Hbs; [|discriminate].
  unfold assign, set_books, set_next_id. simpl. intros [= <-].
  exists data, v, l, items, bs. repeat split; try assumption; reflexivity.
Qed.

(** C5, as the program has it: the ids of the books being unique and
    less than [next_id] holds of the empty library and, when it holds of
    a library, of the library that a call of [add_book], [remove_book]
    or [change_status] leaves, whatever the call returns or raises.  A
    loader that succeeds leaves the books and the [next_id] that it
    reads in the file, whatever the library held; it compares no ids,
    and what it leaves has the property exactly when the ids and the
    [next_id] of the file have it. *)
Theorem ids_unique_below_preserved (self : Library) :
  ids_unique_below Library_init
  /\ (ids_unique_below self ->
      (forall title author year : pyval,
         ids_unique_below (snd (add_book title author year self)))
      /\ (forall book_id : pyint, ids_unique_below (snd (remove_book book_id self)))
      /\ (forall book_id : pyint,
            ids_unique_below (snd (change_status book_id self))))
  /\ (forall (fs : FileSystem) (filename : str) (self' : Library),
        load_from_text fs filename self = (Ok tt, self') ->
        exists (text : str) (n : Z) (bs : list Book),
          text_files fs !! (filename ++ lit ".txt") = Some text
          /\ header (readlines (universal_newlines text)) = Ok n
          /\ comprehension book_of_line (tl (readlines (universal_newlines text)))
             = Ok bs
          /\ self' = {| books := bs; next_id := VInt (Int n) |}
          /\ (ids_unique_below self' <->
              NoDup (map (fun book => option_map int_value (_id book)) bs)
              /\ Forall (fun id => exists z, id = Some z /\ (z < n)%Z)
                        (map (fun book => option_map int_value (_id book)) bs)))
  /\ (forall (fs : FileSystem) (filename : str) (self' : Library),
        load_from_json fs filename self = (Ok tt, self') ->
        exists (data v l : pyval) (items : list pyval) (bs : list Book),
          json_files fs !! (filename ++ lit ".json") = Some (Document data)
          /\ getitem data (lit "next_id") = Ok v
          /\ getitem data (lit "books") = Ok l
          /\ iterate l = Ok items
          /\ comprehension from_dict items = Ok bs
          /\ self' = {| books := bs; next_id := v |}
          /\ (ids_unique_below self' <->
              exists n : pyint,
                v = VInt n
                /\ NoDup (map (fun book => option_map int_value (_id book)) bs)
                /\ Forall (fun id => exists z, id = Some z /\ (z < int_value n)%Z)
                          (map (fun book => option_map int_value (_id book)) bs))).
Proof.
  split; [apply ids_unique_below_init|]. split; [|split].
  - intros Hinv. split; [|split]; intros.
    + apply ids_unique_below_add. exact Hinv.
    + apply ids_unique_below_remove. exact Hinv.
    + apply ids_unique_below_change_status. exact Hinv.
  - intros fs filename self' Hload.
    destruct (load_from_text_ok _ _ _ _ Hload) as (text & n & bs & Htext & Hn & Hbs & ->).
    exists text, n, bs.
    split; [exact Htext|]. split; [exact Hn|]. split; [exact Hbs|].
    split; [reflexivity|]. split.
    + intros (i & Hi & Hdup & Hbelow). cbn [next_id] in Hi. injection Hi as <-.
      split; assumption.
    + intros [Hdup Hbelow]. exists (Int n). split; [reflexivity|]. split; assumption.
  - intros fs filename self' Hload.
    destruct (load_from_json_ok _ _ _ _ Hload)
      as (data & v & l & items & bs & Hdata & Hv & Hl & Hitems & Hbs & ->).
    exists data, v, l, items, bs.
    split; [exact Hdata|]. split; [exact Hv|]. split; [exact Hl|].
    split; [exact Hitems|]. split; [exact Hbs|]. split; [reflexivity|].
    reflexivity.
Qed.

(** *** More on the methods *)

Lemma removed_length (p : Book -> bool) (bs : list Book) :
  (length (List.filter (fun book => negb (p book)) bs) <? length bs)%nat = existsb p bs.
Proof.
  induction bs as [|book bs IH]; [reflexivity|].
  cbn [List.filter existsb length]. destruct (p book); cbn [negb orb length].
  - apply Nat.ltb_lt. pose proof (List.filter_length_le (fun book => negb (p book)) bs).
    lia.
  - exact IH.
Qed.

(** X3: [remove_book] returns [True] exactly when some book has the id; it
    takes every book with the id out of [books], keeps the others in
    their order and leaves [next_id] alone. *)
Theorem remove_book_result (self : Library) (book_id : pyint) :
  remove_book book_id self
  = (Ok (existsb (has_id book_id) (books self)),
     {| books := List.filter (fun book => negb (has_id book_id book)) (books self);
        next_id := next_id self |}).
Proof.
  unfold remove_book. run. f_equal. f_equal. apply (removed_length (has_id book_id)).
Qed.

Lemma find_removed (p : Book -> bool) (bs : list Book) :
  find p (List.filter (fun book => negb (p book)) bs) = None.
Proof.
  induction bs as [|book bs IH]; [reflexivity|].
  cbn [List.filter]. destruct (p book) eqn:Hp; cbn [negb]; [exact IH|].
  cbn [find]. rewrite Hp. exact IH.
Qed.

Lemma filter_removed (p : Book -> bool) (bs : list Book) :
  List.filter (fun book => negb (p book)) (List.filter (fun book => negb (p book)) bs)
  = List.filter (fun book => negb (p book)) bs.
Proof.
  induction bs as [|book bs IH]; [reflexivity|].
  cbn [List.filter]. destruct (p book) eqn:Hp; cbn [negb]; [exact IH|].
  cbn [List.filter]. rewrite Hp. cbn [negb]. rewrite IH. reflexivity.
Qed.

Lemma existsb_find_none (p : Book -> bool) (bs : list Book) :
  find p bs = None -> existsb p bs = false.
Proof.
  induction bs as [|book bs IH]; [reflexivity|].
  cbn [find existsb]. destruct (p book); [discriminate|]. exact IH.
Qed.

(** X4: once [remove_book] has run for an id, no book has the id: a second
    [remove_book] and a [change_status] for it return [False] and leave
    the library as the first call left it. *)
Theorem removed_id_is_gone (self : Library) (book_id : pyint) :
  find (has_id book_id) (books (snd (remove_book book_id self))) = None
  /\ remove_book book_id (snd (remove_book book_id self))
     = (Ok false, snd (remove_book book_id self))
  /\ change_status book_id (snd (remove_book book_id self))
     = (Ok false, snd (remove_book book_id self)).
Proof.
  assert (Hself' : snd (remove_book book_id self)
            = {| books := List.filter (fun book => negb (has_id book_id book)) (books self);
                 next_id := next_id self |}).
  { unfold remove_book. run. reflexivity. }
  rewrite Hself'. cbn [books].
  pose proof (find_removed (has_id book_id) (books self)) as Hfind.
  split; [exact Hfind|]. split.
  - unfold remove_book. run.
    rewrite (removed_length (has_id book_id)), (existsb_find_none _ _ Hfind).
    rewrite (filter_removed (has_id book_id)). reflexivity.
  - unfold change_status. run.
    rewrite (change_status_loop_absent _ _ Hfind). reflexivity.
Qed.

Lemma change_status_loop_frame (bs bs' : list Book) (book_id : pyint) :
  change_status_loop bs book_id = Ok (Some bs') ->
  map without_status bs' = map without_status bs.
Proof.
  revert bs'. induction bs as [|book bs IH]; intros bs'; simpl; [discriminate|].
  destruct (id_eqb (_id book) book_id).
  - destruct (status_is book STATUS_YES); [intros [= <-]; reflexivity|].
    destruct (status_is book STATUS_NO); [intros [= <-]; reflexivity|discriminate].
  - destruct (change_status_loop bs book_id) as [[bs0|]|e]; simpl; try discriminate.
    intros [= <-]. simpl. f_equal. apply IH. reflexivity.
Qed.

(** X5: [change_status] touches statuses only: whatever it returns or
    raises, [next_id] and the number, the order, the ids, titles,
    authors and years of the books are as before; unless it returns
    [True] the library is unchanged altogether. *)
Theorem change_status_frame (self self' : Library) (book_id : pyint)
    (r : result bool) :
  change_status book_id self = (r, self') ->
  next_id self' = next_id self
  /\ map without_status (books self') = map without_status (books self)
  /\ (r = Ok true \/ self' = self).
Proof.
  unfold change_status. run.
  destruct (change_status_loop (books self) book_id) as [[bs'|]|e] eqn:Hloop; simpl.
  - intros [= <- <-]. simpl. split; [reflexivity|].
    split; [exact (change_status_loop_frame _ _ _ Hloop) | left; reflexivity].
  - intros [= <- <-]. auto.
  - intros [= <- <-]. auto.
Qed.

Lemma change_status_loop_unknown (bs : list Book) (book_id : pyint) (book : Book) :
  find (has_id book_id) bs = Some book ->
  _status book <> Some STATUS_YES -> _status book <> Some STATUS_NO ->
  change_status_loop bs book_id = Raise ValueError.
Proof.
  intros Hfind Hyes Hno. induction bs as [|b bs IH]; [discriminate|].
  cbn [find change_status_loop] in *. unfold has_id at 1 in Hfind.
  destruct (id_eqb (_id b) book_id).
  - injection Hfind as ->. unfold status_is.
    destruct (_status book) as [s|]; [|reflexivity].
    destruct (str_eqb s STATUS_YES) eqn:H1;
      [apply str_eqb_eq in H1; subst s; contradiction|].
    destruct (str_eqb s STATUS_NO) eqn:H2;
      [apply str_eqb_eq in H2; subst s; contradiction|].
    reflexivity.
  - rewrite (IH Hfind). reflexivity.
Qed.

(** X6: when the first book with the id has a status that is neither of the
    two (a book that [load_from_json] read with a null status),
    [change_status] raises [ValueError] and changes nothing. *)
Theorem change_status_unknown_status (self : Library) (book_id : pyint) (book : Book) :
  find (has_id book_id) (books self) = Some book ->
  _status book <> Some STATUS_YES -> _status book <> Some STATUS_NO ->
  change_status book_id self = (Raise ValueError, self).
Proof.
  intros Hfind Hyes Hno. unfold change_status. run.
  rewrite (change_status_loop_unknown _ _ _ Hfind Hyes Hno). reflexivity.
Qed.

Lemma Book_init_inv (title author year : pyval) (book : Book) :
  Book_init title author year = Ok book ->
  title = VStr (_title book) /\ author = VStr (_author book)
  /\ isdigit (_author book) = false /\ year = VInt (_year book)
  /\ _id book = None /\ _status book = None.
Proof.
  unfold Book_init.
  destruct title; simpl; try discriminate.
  destruct author; simpl; try discriminate.
  destruct (isdigit s0) eqn:Hd; simpl; try discriminate.
  destruct year; simpl; try discriminate.
  intros [= <-]. simpl. repeat split; auto.
Qed.

Lemma add_book_success (self self' : Library) (title author year : pyval)
    (book : Book) :
  add_book title author year self = (Ok book, self') ->
  title = VStr (_title book) /\ author = VStr (_author book)
  /\ isdigit (_author book) = false /\ year = VInt (_year book)
  /\ next_id self = of_option VInt (_id book) /\ _id book <> None
  /\ _status book = Some STATUS_YES
  /\ books self' = books self ++ [book].
Proof.
  unfold add_book. run.
  destruct (Book_init title author year) as [b0|] eqn:Hinit; [|discriminate].
  apply Book_init_inv in Hinit. destruct Hinit as (-> & -> & Hd & -> & _ & _).
  destruct (next_id self) as [|n| | | |]; simpl; try discriminate.
  intros [= <- <-]. simpl. repeat split; auto; discriminate.
Qed.

(** X7: [add_book] returns a book only for a string title, a string author
    that is not made of digits and an integer year, in a library whose
    [next_id] is an integer; the book then carries that [next_id] as its
    id and is the last of [books]. *)
Theorem add_book_only_if (self self' : Library) (title author year : pyval)
    (book : Book) :
  add_book title author year self = (Ok book, self') ->
  title = VStr (_title book) /\ author = VStr (_author book)
  /\ isdigit (_author book) = false /\ year = VInt (_year book)
  /\ next_id self = of_option VInt (_id book) /\ _id book <> None
  /\ _status book = Some STATUS_YES
  /\ books self' = books self ++ [book].
Proof. apply add_book_success. Qed.

(** X8: what [find_books] returns after an [add_book] that succeeded: what
    it returned before, followed by the new book when the new book
    agrees with the criteria. *)
Theorem find_books_after_add (self self' : Library) (title author year : pyval)
    (book : Book) (t a : option str) (y : option pyint) :
  add_book title author year self = (Ok book, self') ->
  find_books t a y self'
  = find_books t a y self
    ++ (if decide (agrees t a y book) then [book] else []).
Proof.
  intros Hadd. apply add_book_success in Hadd.
  destruct Hadd as (_ & _ & _ & _ & _ & _ & _ & Hbooks).
  unfold find_books. rewrite Hbooks, !find_books_loop. cbn [app].
  rewrite List.filter_app. f_equal. cbn [List.filter].
  destruct (decide (agrees t a y book)) as [Hyes|Hno].
  - unfold agrees in Hyes.
    rewrite <- matches_int, <- !matches_str in Hyes.
    destruct Hyes as (-> & -> & ->). reflexivity.
  - destruct (matches str_eqb t (_title book) && matches str_eqb a (_author book)
              && matches int_eqb y (_year book)) eqn:Hm; [|reflexivity].
    exfalso. apply Hno. unfold agrees.
    rewrite !andb_true_iff, !matches_str, matches_int in Hm. tauto.
Qed.

(** *** More on the two formats *)

Lemma int_of_str_raises (s : str) (e : exn) : int_of_str s = Raise e -> e = ValueError.
Proof.
  unfold int_of_str.
  repeat match goal with
  | |- context [match ?x with _ => _ end] => destruct x
  end; congruence.
Qed.

Lemma Book_init_raises (title author year : pyval) (e : exn) :
  Book_init title author year = Raise e -> e = ValueError.
Proof.
  unfold Book_init, title_setter, author_setter, year_setter.
  repeat match goal with
  | |- context [match ?x with _ => _ end] => destruct x
  end; simpl; congruence.
Qed.

Lemma id_setter_inv (book book' : Book) (value : pyval) :
  id_setter book value = Ok book' ->
  value = of_option VInt (_id book') /\ book' = with_id book (_id book').
Proof.
  unfold id_setter. destruct value; try discriminate; intros [= <-]; auto.
Qed.

Lemma status_setter_inv (book book' : Book) (value : pyval) :
  status_setter book value = Ok book' ->
  value = of_option VStr (_status book')
  /\ book' = with_status book (_status book').
Proof.
  unfold status_setter. destruct value; try discriminate.
  - intros [= <-]. auto.
  - destruct (str_eqb s STATUS_YES || str_eqb s STATUS_NO); [|discriminate].
    intros [= <-]. auto.
Qed.

(** X9: [from_dict] returns a book exactly for a dict that holds, under the
    five keys, the attributes of a valid book (a null id and a null
    status among them); the book is then the one with these
    attributes, so that [to_dict] of it holds the same under each key. *)
Theorem from_dict_iff (data : pyval) (book : Book) :
  from_dict data = Ok book <->
  valid_book book = true
  /\ getitem data (lit "title") = Ok (VStr (_title book))
  /\ getitem data (lit "author") = Ok (VStr (_author book))
  /\ getitem data (lit "year") = Ok (VInt (_year book))
  /\ getitem data (lit "id") = Ok (of_option VInt (_id book))
  /\ getitem data (lit "status") = Ok (of_option VStr (_status book)).
Proof.
  split.
  - intros Hfrom. split; [exact (from_dict_ok _ _ Hfrom)|]. revert Hfrom.
    unfold from_dict.
    destruct (getitem data (lit "title")) as [title|]; [|discriminate].
    destruct (getitem data (lit "author")) as [author|]; [|discriminate].
    destruct (getitem data (lit "year")) as [year|]; [|discriminate].
    cbn [rbind]. destruct (Book_init title author year) as [b0|] eqn:H0; [|discriminate].
    cbn [rbind]. destruct (getitem data (lit "id")) as [id|]; [|discriminate].
    cbn [rbind]. destruct (id_setter b0 id) as [b1|] eqn:H1; [|discriminate].
    cbn [rbind]. destruct (getitem data (lit "status")) as [status|]; [|discriminate].
    cbn [rbind]. destruct (status_setter b1 status) as [b2|] eqn:H2; [|discriminate].
    intros [= <-].
    apply Book_init_inv in H0. destruct H0 as (-> & -> & _ & -> & _ & _).
    apply id_setter_inv in H1. destruct H1 as (-> & Hb1).
    apply status_setter_inv in H2. destruct H2 as (-> & Hb2).
    rewrite Hb2, Hb1. simpl. auto.
  - intros (Hvalid & Htitle & Hauthor & Hyear & Hid & Hstatus).
    unfold valid_book in Hvalid. rewrite andb_true_iff, negb_true_iff in Hvalid.
    destruct Hvalid as [Hd Hs].
    unfold from_dict. rewrite Htitle, Hauthor, Hyear, Hid, Hstatus. cbn [rbind].
    rewrite (Book_init_valid _ _ _ Hd). cbn [rbind].
    destruct book as [title author year [i|] [st|]]; simpl in *;
      try rewrite Hs; reflexivity.
Qed.

Lemma book_of_line_catalogued (line : str) (book : Book) :
  book_of_line line = Ok book -> catalogued book = true.
Proof.
  intros Hline. pose proof (book_of_line_ok _ _ Hline) as Hvalid. revert Hline.
  unfold book_of_line. set (parts := split PIPE (strip line)).
  destruct (list_getitem parts 1) as [title|]; [|discriminate].
  destruct (list_getitem parts 2) as [author|]; [|discriminate].
  destruct (list_getitem parts 3) as [year|]; [|discriminate].
  cbn [rbind]. destruct (int_of_str year) as [y|]; [|discriminate].
  cbn [rbind].
  destruct (Book_init (VStr title) (VStr author) (VInt (Int y))) as [b0|];
    [|discriminate].
  cbn [rbind]. destruct (list_getitem parts 0) as [id|]; [|discriminate].
  cbn [rbind]. destruct (int_of_str id) as [i|]; [|discriminate].
  cbn [rbind id_setter]. destruct (list_getitem parts 4) as [status|]; [|discriminate].
  cbn [rbind status_setter].
  destruct (str_eqb status STATUS_YES || str_eqb status STATUS_NO); [|discriminate].
  intros [= <-]. unfold catalogued in *. exact Hvalid.
Qed.

Lemma catalogued_load_lines (lines : list str) (self : Library) :
  forallb catalogued (books self) = true ->
  forallb catalogued (books (snd (load_lines lines self))) = true
  /\ next_id (snd (load_lines lines self)) = next_id self.
Proof.
  revert self. induction lines as [|line lines IH]; intros self Hself; [auto|].
  cbn [load_lines]. unfold bind at 1 3, lift at 1 2.
  destruct (book_of_line line) as [book|] eqn:Hline; [|auto].
  unfold bind at 1 2, assign at 1 2.
  destruct (IH (set_books (books self ++ [book]) self)) as [IH1 IH2].
  { unfold set_books. simpl. rewrite forallb_app, Hself. simpl.
    rewrite (book_of_line_catalogued _ _ Hline). reflexivity. }
  auto.
Qed.

Lemma load_from_text_leaves (fs : FileSystem) (filename : str)
    (self self' : Library) (r : result unit) :
  load_from_text fs filename self = (r, self') ->
  catalogue self' = true \/ (self' = self /\ r <> Ok tt).
Proof.
  unfold load_from_text.
  destruct (text_files fs !! (filename ++ lit ".txt")) as [text|];
    [|intros [= <- <-]; right; split; [reflexivity|discriminate]].
  cbv zeta. unfold bind at 1, lift at 1.
  destruct (header (readlines (universal_newlines text))) as [n|];
    [|intros [= <- <-]; right; split; [reflexivity|discriminate]].
  unfold bind at 1, assign at 1. unfold bind at 1, assign at 1.
  intros Hlines. left.
  destruct (catalogued_load_lines (tl (readlines (universal_newlines text)))
              (set_books [] (set_next_id (VInt (Int n)) self)) eq_refl) as [H1 H2].
  rewrite Hlines in H1, H2. simpl in H1, H2.
  unfold catalogue. rewrite H2. exact H1.
Qed.

(** X10: [load_from_text] by the file.  With no file it raises what
    [open] raises, and with a file whose first line is no integer what
    that line makes [int] or the indexing raise, the library being as
    before.  Once it has read the first line it leaves a catalogue, also
    when it raises at a later line: [next_id] the integer of the first
    line, every book with an id and one of the two statuses. *)
Theorem load_from_text_catalogue (fs : FileSystem) (filename : str)
    (self self' : Library) (r : result unit) :
  load_from_text fs filename self = (r, self') ->
  match text_files fs !! (filename ++ lit ".txt") with
  | Some text =>
    match header (readlines (universal_newlines text)) with
    | Ok n => catalogue self' = true /\ next_id self' = VInt (Int n)
    | Raise e => r = Raise e /\ self' = self
    end
  | None => r = Raise (open_error fs (filename ++ lit ".txt")) /\ self' = self
  end.
Proof.
  unfold load_from_text.
  destruct (text_files fs !! (filename ++ lit ".txt")) as [text|];
    [|intros [= <- <-]; split; reflexivity].
  cbv zeta. unfold bind at 1, lift at 1.
  destruct (header (readlines (universal_newlines text))) as [n|];
    [|intros [= <- <-]; split; reflexivity].
  unfold bind at 1, assign at 1. unfold bind at 1, assign at 1.
  intros Hlines.
  destruct (catalogued_load_lines (tl (readlines (universal_newlines text)))
              (set_books [] (set_next_id (VInt (Int n)) self)) eq_refl) as [H1 H2].
  rewrite Hlines in H1, H2. simpl in H1, H2.
  unfold catalogue. rewrite H2. split; [exact H1 | reflexivity].
Qed.

Lemma catalogue_inv (self : Library) :
  catalogue self = true ->
  exists n, next_id self = VInt n /\ forallb catalogued (books self) = true.
Proof.
  unfold catalogue. destruct (next_id self) as [|n| | | |]; try discriminate.
  eauto.
Qed.

Lemma catalogue_add (self : Library) (title author year : pyval) :
  catalogue self = true -> catalogue (snd (add_book title author year self)) = true.
Proof.
  intros Hself. destruct (catalogue_inv _ Hself) as (n & Hn & Hbooks).
  pose proof (add_book_run self title author year) as Hrun.
  destruct (Book_init title author year) as [b0|] eqn:Hinit.
  - rewrite (Hrun _ Hn). unfold catalogue. simpl.
    rewrite forallb_app, Hbooks. simpl. rewrite andb_true_r.
    pose proof (Book_init_ok _ _ _ _ Hinit) as Hvalid.
    unfold catalogued, valid_book in *. simpl.
    rewrite andb_true_iff in *. tauto.
  - rewrite Hrun. exact Hself.
Qed.

Lemma catalogue_remove (self : Library) (book_id : pyint) :
  catalogue self = true -> catalogue (snd (remove_book book_id self)) = true.
Proof.
  intros Hself. destruct (catalogue_inv _ Hself) as (n & Hn & Hbooks).
  unfold remove_book, catalogue. run. rewrite Hn. rewrite forallb_forall in *.
  intros book Hin. apply List.filter_In in Hin. apply Hbooks. tauto.
Qed.

Lemma change_status_loop_catalogued (bs bs' : list Book) (book_id : pyint) :
  change_status_loop bs book_id = Ok (Some bs') ->
  forallb catalogued bs = true -> forallb catalogued bs' = true.
Proof.
  revert bs'. induction bs as [|book bs IH]; intros bs'; simpl; [discriminate|].
  rewrite andb_true_iff.
  destruct (id_eqb (_id book) book_id).
  - destruct (status_is book STATUS_YES);
      [|destruct (status_is book STATUS_NO); [|discriminate]].
    all: intros [= <-] [Hbook Hbs]; simpl; rewrite Hbs, andb_true_r.
    all: unfold catalogued, valid_book in *; simpl.
    all: destruct (_id book), (_status book); try discriminate.
    all: rewrite andb_true_iff in *; split; [tauto | reflexivity].
  - destruct (change_status_loop bs book_id) as [[bs0|]|]; simpl; try discriminate.
    intros [= <-] [Hbook Hbs]. simpl. rewrite Hbook, (IH _ eq_refl Hbs). reflexivity.
Qed.

Lemma catalogue_change_status (self : Library) (book_id : pyint) :
  catalogue self = true -> catalogue (snd (change_status book_id self)) = true.
Proof.
  intros Hself. destruct (catalogue_inv _ Hself) as (n & Hn & Hbooks).
  unfold change_status. run.
  destruct (change_status_loop (books self) book_id) as [[bs'|]|] eqn:Hloop;
    simpl; try exact Hself.
  unfold catalogue. simpl. rewrite Hn.
  eapply change_status_loop_catalogued; eassumption.
Qed.

(** X11: being a catalogue holds of [Library()] and is kept by [add_book],
    [remove_book], [change_status] and [load_from_text], whatever they
    return or raise. *)
Theorem catalogue_preserved (self : Library) :
  catalogue self = true ->
  catalogue Library_init = true
  /\ (forall title author year,
        catalogue (snd (add_book title author year self)) = true)
  /\ (forall book_id, catalogue (snd (remove_book book_id self)) = true)
  /\ (forall book_id, catalogue (snd (change_status book_id self)) = true)
  /\ (forall fs filename, catalogue (snd (load_from_text fs filename self)) = true).
Proof.
  intros Hself. split; [reflexivity|].
  split; [|split; [|split]]; intros.
  - apply catalogue_add, Hself.
  - apply catalogue_remove, Hself.
  - apply catalogue_change_status, Hself.
  - destruct (load_from_text fs filename self) as [r self'] eqn:Hload.
    apply load_from_text_leaves in Hload. simpl.
    destruct Hload as [H | [-> _]]; [exact H | exact Hself].
Qed.

Lemma find_some_in (p : Book -> bool) (bs : list Book) (book : Book) :
  find p bs = Some book -> In book bs /\ existsb p bs = true.
Proof.
  induction bs as [|b bs IH]; [discriminate|].
  cbn [find existsb]. destruct (p b) eqn:Hp.
  - intros [= <-]. split; [left; reflexivity | reflexivity].
  - intros H. destruct (IH H). split; [right; assumption | assumption].
Qed.

Lemma change_status_returns (self : Library) (book_id : pyint) :
  catalogue self = true ->
  exists self',
    change_status book_id self
    = (Ok (existsb (has_id book_id) (books self)), self').
Proof.
  intros Hself. destruct (catalogue_inv _ Hself) as (n & Hn & Hbooks).
  unfold change_status. run.
  destruct (find (has_id book_id) (books self)) as [book|] eqn:Hfind.
  - destruct (find_some_in _ _ _ Hfind) as [Hin ->].
    rewrite forallb_forall in Hbooks. specialize (Hbooks _ Hin).
    assert (Hstatus : _status book = Some STATUS_YES \/ _status book = Some STATUS_NO).
    { unfold catalogued, valid_book in Hbooks.
      destruct (_id book), (_status book) as [s|]; try discriminate.
      rewrite andb_true_iff, orb_true_iff, !str_eqb_eq in Hbooks.
      destruct Hbooks as [_ [-> | ->]]; auto. }
    destruct (change_status_loop_present _ _ _ Hfind Hstatus) as (bs' & -> & _).
    simpl. eauto.
  - rewrite (existsb_find_none _ _ Hfind), (change_status_loop_absent _ _ Hfind).
    simpl. eauto.
Qed.

(** X12: in a catalogue [change_status] never raises: it returns [True] when
    some book has the id and [False] otherwise. *)
Theorem change_status_catalogue (self : Library) (book_id : pyint) :
  catalogue self = true ->
  exists self',
    change_status book_id self
    = (Ok (existsb (has_id book_id) (books self)), self').
Proof.
  apply change_status_returns.
Qed.

Lemma getitem_first_five {A} (l1 l2 : list A) (i : nat) :
  firstn 5 l1 = firstn 5 l2 -> (i < 5)%nat -> list_getitem l1 i = list_getitem l2 i.
Proof.
  intros Heq Hi. unfold list_getitem.
  pose proof (nth_error_firstn 5 l1 i) as H1.
  pose proof (nth_error_firstn 5 l2 i) as H2.
  apply Nat.ltb_lt in Hi. rewrite Hi in H1, H2. rewrite <- H1, <- H2, Heq. reflexivity.
Qed.

(** X13: a line is read by its first five fields: [load_from_text] makes the
    same of two lines that agree on them, whatever follows the fifth
    delimiter. *)
Theorem book_of_line_first_five (line1 line2 : str) :
  firstn 5 (split PIPE (strip line1)) = firstn 5 (split PIPE (strip line2)) ->
  book_of_line line1 = book_of_line line2.
Proof.
  intros Heq. unfold book_of_line.
  rewrite (getitem_first_five _ _ 0 Heq), (getitem_first_five _ _ 1 Heq),
          (getitem_first_five _ _ 2 Heq), (getitem_first_five _ _ 3 Heq),
          (getitem_first_five _ _ 4 Heq) by lia.
  reflexivity.
Qed.

(** X14: a line with fewer than five fields gives no book: the loop of
    [load_from_text] raises [IndexError], or [ValueError] when a field
    that is there is refused first. *)
Theorem book_of_line_too_short (line : str) :
  (length (split PIPE (strip line)) < 5)%nat ->
  book_of_line line = Raise IndexError \/ book_of_line line = Raise ValueError.
Proof.
  unfold book_of_line. set (parts := split PIPE (strip line)). intros Hlen.
  destruct parts as [|p0 [|p1 [|p2 [|p3 [|p4 rest]]]]]; simpl in Hlen; try lia;
    cbn [list_getitem nth_error rbind]; auto.
  destruct (int_of_str p3) as [y|e] eqn:Hy; cbn [rbind];
    [|apply int_of_str_raises in Hy; subst e; auto].
  destruct (Book_init (VStr p1) (VStr p2) (VInt (Int y))) as [b0|e] eqn:Hb;
    cbn [rbind]; [|apply Book_init_raises in Hb; subst e; auto].
  destruct (int_of_str p0) as [i|e] eqn:Hi; cbn [rbind id_setter]; auto.
  apply int_of_str_raises in Hi. subst e. auto.
Qed.

Lemma list_getitem_raises {A} (l : list A) (i : nat) (e : exn) :
  list_getitem l i = Raise e -> e = IndexError.
Proof. unfold list_getitem. destruct (nth_error l i); congruence. Qed.

Lemma book_of_line_raises (line : str) (e : exn) :
  book_of_line line = Raise e -> e = IndexError \/ e = ValueError.
Proof.
  unfold book_of_line. set (parts := split PIPE (strip line)).
  destruct (list_getitem parts 1) as [title|e0] eqn:H1; cbn [rbind];
    [|intros [= <-]; left; exact (list_getitem_raises _ _ _ H1)].
  destruct (list_getitem parts 2) as [author|e0] eqn:H2; cbn [rbind];
    [|intros [= <-]; left; exact (list_getitem_raises _ _ _ H2)].
  destruct (list_getitem parts 3) as [year|e0] eqn:H3; cbn [rbind];
    [|intros [= <-]; left; exact (list_getitem_raises _ _ _ H3)].
  destruct (int_of_str year) as [y|e0] eqn:Hy; cbn [rbind];
    [|intros [= <-]; right; exact (int_of_str_raises _ _ Hy)].
  destruct (Book_init (VStr title) (VStr author) (VInt (Int y))) as [b0|e0] eqn:Hb;
    cbn [rbind]; [|intros [= <-]; right; exact (Book_init_raises _ _ _ _ Hb)].
  destruct (list_getitem parts 0) as [id|e0] eqn:H0; cbn [rbind];
    [|intros [= <-]; left; exact (list_getitem_raises _ _ _ H0)].
  destruct (int_of_str id) as [i|e0] eqn:Hi; cbn [rbind id_setter];
    [|intros [= <-]; right; exact (int_of_str_raises _ _ Hi)].
  destruct (list_getitem parts 4) as [status|e0] eqn:H4; cbn [rbind status_setter];
    [|intros [= <-]; left; exact (list_getitem_raises _ _ _ H4)].
  destruct (str_eqb status STATUS_YES || str_eqb status STATUS_NO); cbn [rbind];
    [discriminate | intros [= <-]; right; reflexivity].
Qed.

Lemma load_lines_raises (lines : list str) (self self' : Library) (e : exn) :
  load_lines lines self = (Raise e, self') -> e = IndexError \/ e = ValueError.
Proof.
  revert self. induction lines as [|line lines IH]; intros self; cbn [load_lines].
  - unfold ret. discriminate.
  - unfold bind at 1, lift at 1.
    destruct (book_of_line line) as [book|e0] eqn:Hline.
    + unfold bind at 1, assign at 1. apply IH.
    + intros [= <- <-]. exact (book_of_line_raises _ _ Hline).
Qed.

(** X15: what [load_from_text] raises.  With no file, what [open]
    raises, the library being as before; with a file, nothing but
    [IndexError] and [ValueError], neither of which [main] catches. *)
Theorem load_from_text_raises (fs : FileSystem) (filename : str)
    (self self' : Library) (e : exn) :
  load_from_text fs filename self = (Raise e, self') ->
  match text_files fs !! (filename ++ lit ".txt") with
  | Some _ => e = IndexError \/ e = ValueError
  | None => e = open_error fs (filename ++ lit ".txt") /\ self' = self
  end.
Proof.
  unfold load_from_text.
  destruct (text_files fs !! (filename ++ lit ".txt")) as [text|];
    [|intros [= <- <-]; split; reflexivity].
  cbv zeta. unfold bind at 1, lift at 1. unfold header.
  destruct (list_getitem (readlines (universal_newlines text)) 0) as [line|e0] eqn:H0;
    cbn [rbind]; [|intros [= <- <-]; left; exact (list_getitem_raises _ _ _ H0)].
  destruct (int_of_str (strip line)) as [n|e0] eqn:Hn;
    [|intros [= <- <-]; right; exact (int_of_str_raises _ _ Hn)].
  unfold bind at 1, assign at 1. unfold bind at 1, assign at 1.
  apply load_lines_raises.
Qed.

(** *** The console loop *)

Section Turn.
Variables (L : Library -> Prop) (F : FileSystem -> Prop).
Variables (S : list str -> Prop) (H : str -> Prop).
Variables (R : World -> Prop) (E : ending -> World -> Prop).
Hypothesis S_tail : forall line rest, S (line :: rest) -> S rest /\ H line.
Hypothesis S_nil : S [].
Hypothesis R_on_world : forall w, on_world L F S w -> R w.
Hypothesis E_EOFError : forall w, on_world L F S w -> E EOFError w.

Lemma triple_bind {A B} (P : World -> Prop) (m : io A) (Q : A -> World -> Prop)
    (k : A -> io B) (Q' : B -> World -> Prop) :
  triple R E P m Q -> (forall a, triple R E (Q a) (k a) Q') ->
  triple R E P (io_bind m k) Q'.
Proof.
  intros Hm Hk w HP. unfold io_bind. specialize (Hm w HP).
  destruct (m w) as [[a| |why] w']; [apply (Hk a w' Hm) | exact Hm | exact Hm].
Qed.

Lemma triple_pure {A} (P : World -> Prop) (fact : Prop) (m : io A)
    (Q : A -> World -> Prop) :
  (fact -> triple R E P m Q) -> triple R E (fun w => P w /\ fact) m Q.
Proof. intros Hm w [HP Hfact]. exact (Hm Hfact w HP). Qed.

Lemma triple_say (s : str) :
  triple R E (on_world L F S) (say s) (fun _ w => on_world L F S w /\ True).
Proof. intros w HP. simpl. split; [exact HP | exact I]. Qed.

Lemma triple_input (prompt : str) :
  triple R E (on_world L F S) (input prompt) (fun line w => on_world L F S w /\ H line).
Proof.
  intros w (HL & HF & HS). unfold input. destruct (stdin w) as [|line rest].
  - apply E_EOFError. repeat split; [exact HL | exact HF | exact S_nil].
  - destruct (S_tail _ _ HS). repeat split; assumption.
Qed.

Lemma triple_invoke {A} (m : FileSystem -> method A) (G : result A -> Prop) :
  (forall fs self, L self -> L (snd (m fs self)) /\ G (fst (m fs self))) ->
  triple R E (on_world L F S) (fun w => invoke (m (files w)) w)
         (fun r w => on_world L F S w /\ G r).
Proof.
  intros Hm w (HL & HF & HS). unfold invoke. specialize (Hm (files w) (library w) HL).
  destruct (m (files w) (library w)) as [r self]. simpl in *.
  destruct Hm. repeat split; assumption.
Qed.

Lemma triple_save (f : Library -> FileSystem -> result unit * FileSystem) :
  (forall self fs, L self -> F fs -> F (snd (f self fs))) ->
  triple R E (on_world L F S) (save f) (fun _ w => on_world L F S w /\ True).
Proof.
  intros Hf w (HL & HF & HS). unfold save.
  specialize (Hf (library w) (files w) HL HF).
  destruct (f (library w) (files w)) as [r fs]. split; [|exact I].
  split; [exact HL|]. split; [exact Hf | exact HS].
Qed.

Lemma triple_display :
  triple R E (on_world L F S) with_display (fun _ w => on_world L F S w /\ True).
Proof. intros w HP. simpl. split; [exact HP | exact I]. Qed.

Lemma triple_look {A} (f : Library -> A) :
  triple R E (on_world L F S) (fun w => (Value (f (library w)), w))
         (fun _ w => on_world L F S w /\ True).
Proof. intros w HP. simpl. split; [exact HP | exact I]. Qed.

Lemma triple_continue {A} (Q : A -> World -> Prop) :
  triple R E (on_world L F S) continue Q.
Proof. intros w HP. simpl. apply R_on_world, HP. Qed.

Lemma triple_halt {A} (why : ending) (Q : A -> World -> Prop) :
  (forall w, on_world L F S w -> E why w) ->
  triple R E (on_world L F S) (halt why) Q.
Proof. intros HE w HP. simpl. apply HE, HP. Qed.

Lemma triple_input_int (prompt sorry : str) :
  triple R E (on_world L F S) (input_int prompt sorry)
         (fun _ w => on_world L F S w /\ True).
Proof.
  unfold input_int. eapply triple_bind; [apply triple_input|].
  intros line. cbv beta. apply triple_pure. intros _.
  destruct (int_of_str line) as [n|e] eqn:Hline.
  - intros w HP. simpl. split; [exact HP | exact I].
  - apply int_of_str_raises in Hline. subst e. cbn [is_ValueError].
    eapply triple_bind; [apply triple_say|]. intros ?. cbv beta.
    apply triple_pure. intros _. apply triple_continue.
Qed.

Lemma triple_say_found (found : list Book) :
  triple R E (on_world L F S) (say_found found) (fun _ w => on_world L F S w /\ True).
Proof.
  unfold say_found. destruct found as [|book found]; [apply triple_say|].
  eapply triple_bind; [apply triple_say|]. intros ?. cbv beta.
  apply triple_pure. intros _. intros w HP. simpl. split; [exact HP | exact I].
Qed.

Lemma triple_call {A} (m : method A) (G : result A -> Prop) :
  (forall self, L self -> L (snd (m self)) /\ G (fst (m self))) ->
  triple R E (on_world L F S) (invoke m) (fun r w => on_world L F S w /\ G r).
Proof. intros Hm. apply (triple_invoke (fun _ => m) G). intros _. exact Hm. Qed.

End Turn.

Ltac io_step line_fact :=
  cbv beta;
  lazymatch goal with
  | |- triple _ _ (fun w => _ /\ _) _ _ => apply triple_pure; intros ?
  | |- triple _ _ _ (io_bind (input _) _) _ =>
    eapply triple_bind;
    [ eapply (triple_input _ _ _ line_fact); eassumption | intros ? ]
  | |- triple _ _ _ (io_bind (input_int _ _) _) _ =>
    eapply triple_bind;
    [ eapply (triple_input_int _ _ _ line_fact); eassumption | intros ? ]
  | |- triple _ _ _ (io_bind (say _) _) _ =>
    eapply triple_bind; [ eapply triple_say | intros ? ]
  | |- triple _ _ _ (io_bind (save _) _) _ =>
    eapply triple_bind; [ eapply triple_save; intros; exact I | intros ? ]
  | |- triple _ _ _ (io_bind (fun w => (Value _, w)) _) _ =>
    eapply triple_bind; [ eapply triple_look | intros ? ]
  | |- triple _ _ _ (io_bind (io_bind _ _) _) _ => eapply triple_bind; [ | intros ? ]
  | |- triple _ _ _ (io_bind (if _ then _ else _) _) _ =>
    eapply triple_bind; [ | intros ? ]
  | |- triple _ _ _ (fun w => (Value _, w)) _ => eapply triple_look
  | |- triple _ _ _ (say _) _ => eapply triple_say
  | |- triple _ _ _ (say_found _) _ => eapply triple_say_found
  | |- triple _ _ _ with_display _ => eapply triple_display
  | |- triple _ _ _ continue _ => eapply triple_continue; eassumption
  | |- triple _ _ _ (if ?b then _ else _) _ => destruct b eqn:?
  end.

Ltac io_steps line_fact call_tac halt_tac :=
  repeat first
    [ io_step line_fact
    | lazymatch goal with
      | |- triple _ _ _ (io_bind (invoke _) _) _ =>
        eapply triple_bind; [ eapply triple_call; call_tac | intros ? ]
      | |- triple _ _ _
             (io_bind (fun w => invoke (load_from_json (files w) ?name) w) _) _ =>
        eapply triple_bind;
        [ eapply (triple_invoke _ _ _ _ _ (fun fs => load_from_json fs name)); call_tac
        | intros ? ]
      | |- triple _ _ _
             (io_bind (fun w => invoke (load_from_text (files w) ?name) w) _) _ =>
        eapply triple_bind;
        [ eapply (triple_invoke _ _ _ _ _ (fun fs => load_from_text fs name)); call_tac
        | intros ? ]
      | |- triple _ _ _ (halt _) _ => eapply triple_halt; halt_tac
      | |- triple _ _ _ (match ?r with _ => _ end) _ => destruct r eqn:?
      end ].

(** A branch reads on from the lines that are left and never puts one
    back. *)
Lemma dispatch_progress (n : nat) (choice : str) :
  triple (on_world (fun _ => True) (fun _ => True) (fun lines => (length lines <= n)%nat))
         (fun _ _ => True)
         (on_world (fun _ => True) (fun _ => True) (fun lines => (length lines <= n)%nat))
         (dispatch choice)
         (fun _ w => on_world (fun _ => True) (fun _ => True) (fun lines => (length lines <= n)%nat) w
                     /\ True).
Proof.
  assert (S_tail : forall (line : str) (rest : list str),
            (length (line :: rest) <= n)%nat -> (length rest <= n)%nat /\ True)
    by (simpl; intros; split; [lia | exact I]).
  assert (S_nil : (length (@nil str) <= n)%nat) by (simpl; lia).
  assert (R_ok : forall w,
            on_world (fun _ => True) (fun _ => True) (fun lines => (length lines <= n)%nat) w ->
            on_world (fun _ => True) (fun _ => True) (fun lines => (length lines <= n)%nat) w) by auto.
  assert (E_ok : forall w,
            on_world (fun _ => True) (fun _ => True) (fun lines => (length lines <= n)%nat) w -> True)
    by auto.
  unfold dispatch.
  io_steps (fun _ : str => True)
           ltac:(instantiate (1 := fun _ => True); intros; split; exact I)
           ltac:(intros; exact I).
Qed.

Lemma say_then (s : str) (k : io unit) :
  (forall w, exists out,
      k w = (Value tt, {| library := library w; files := files w;
                          stdin := stdin w; stdout := out |})) ->
  forall w, exists out,
    io_bind (say s) (fun _ => k) w
    = (Value tt, {| library := library w; files := files w;
                    stdin := stdin w; stdout := out |}).
Proof.
  intros Hk w. unfold io_bind, say.
  destruct (Hk {| library := library w; files := files w; stdin := stdin w;
                  stdout := print s (stdout w) |}) as [out Hout].
  exists out. rewrite Hout. reflexivity.
Qed.

Lemma menu_spec (w : World) :
  exists out,
    menu w = (Value tt, {| library := library w; files := files w;
                           stdin := stdin w; stdout := out |}).
Proof.
  revert w. unfold menu.
  repeat lazymatch goal with
         | |- forall w, exists out, io_bind _ _ w = _ => apply say_then
         end.
  intros w. eexists. reflexivity.
Qed.

Lemma turn_progress (w : World) :
  match turn w with
  | (Halt _, _) => True
  | (_, w') => (length (stdin w') < length (stdin w))%nat
  end.
Proof.
  unfold turn. unfold io_bind at 1. destruct (menu_spec w) as [out ->].
  unfold io_bind at 1, input at 1. cbn [stdin library files stdout].
  destruct (stdin w) as [|choice rest]; [exact I|].
  pose proof (dispatch_progress (length rest) choice
                {| library := library w; files := files w; stdin := rest;
                   stdout := out ++ lit "Выберите действие: " |}) as Hd.
  lazymatch type of Hd with ?P -> _ => assert (HP : P) by (split; simpl; auto) end.
  specialize (Hd HP). clear HP.
  destruct (dispatch choice _) as [[[]| |why] w']; [| |exact I].
  - destruct Hd as [[_ Hlen] _]. simpl. lia.
  - destruct Hd as [_ Hlen]. simpl. lia.
Qed.

Lemma main_loop_enough (fuel : nat) (w : World) :
  (length (stdin w) < fuel)%nat ->
  exists why w', main_loop fuel w = Some (why, w').
Proof.
  revert w. induction fuel as [|fuel IH]; intros w Hfuel; [lia|].
  cbn [main_loop]. pose proof (turn_progress w) as Hturn.
  destruct (turn w) as [[[]| |why] w']; [| |eauto]; apply IH; lia.
Qed.

(** X16: [main] comes to an end on every finite input: by [break], by an
    exception that it does not catch, or by the [EOFError] of [input];
    the turns never run out before the lines do. *)
Theorem main_terminates (fs : FileSystem) (lines : list str) :
  exists why w, main fs lines = Some (why, w).
Proof. unfold main. apply main_loop_enough. simpl. lia. Qed.

Lemma sound_add_book (title author year : pyval) (self : Library) :
  sound self ->
  sound (snd (add_book title author year self))
  /\ (forall e, fst (add_book title author year self) = Raise e -> e = ValueError).
Proof.
  intros [Hcat Hids]. split.
  - split; [apply catalogue_add, Hcat | apply ids_unique_below_add, Hids].
  - destruct (catalogue_inv _ Hcat) as (n & Hn & _).
    pose proof (add_book_run self title author year) as Hrun.
    destruct (Book_init title author year) as [b0|e0] eqn:Hinit.
    + rewrite (Hrun n Hn). discriminate.
    + rewrite Hrun. simpl. intros e [= <-]. exact (Book_init_raises _ _ _ _ Hinit).
Qed.

Lemma sound_remove_book (book_id : pyint) (self : Library) :
  sound self ->
  sound (snd (remove_book book_id self))
  /\ (exists b, fst (remove_book book_id self) = Ok b).
Proof.
  intros [Hcat Hids]. split.
  - split; [apply catalogue_remove, Hcat | apply ids_unique_below_remove, Hids].
  - unfold remove_book. run. eauto.
Qed.

Lemma sound_change_status (book_id : pyint) (self : Library) :
  sound self ->
  sound (snd (change_status book_id self))
  /\ (exists b, fst (change_status book_id self) = Ok b).
Proof.
  intros [Hcat Hids]. split.
  - split; [apply catalogue_change_status, Hcat
           | apply ids_unique_below_change_status, Hids].
  - destruct (change_status_returns self book_id Hcat) as [self' ->]. simpl. eauto.
Qed.

Lemma no_load_inv (line : str) :
  no_load line = true ->
  str_eqb line (lit "7") = false /\ str_eqb line (lit "9") = false.
Proof.
  unfold no_load. rewrite andb_true_iff, !negb_true_iff. tauto.
Qed.

Lemma no_save_inv (line : str) :
  no_save line = true ->
  str_eqb line (lit "6") = false /\ str_eqb line (lit "8") = false.
Proof.
  unfold no_save. rewrite andb_true_iff, !negb_true_iff. tauto.
Qed.

(** A branch other than the four that open a file keeps a sound library
    and raises nothing that [main] does not catch. *)
Lemma dispatch_sound (choice : str) :
  no_file choice = true ->
  triple (on_world sound (fun _ => True) (fun lines => forallb no_file lines = true))
         (fun why w =>
            quiet why /\ on_world sound (fun _ => True) (fun lines => forallb no_file lines = true) w)
         (on_world sound (fun _ => True) (fun lines => forallb no_file lines = true))
         (dispatch choice)
         (fun _ w =>
            on_world sound (fun _ => True) (fun lines => forallb no_file lines = true) w /\ True).
Proof.
  intros Hchoice. apply andb_true_iff in Hchoice.
  destruct (no_load_inv _ (proj1 Hchoice)) as [H7 H9].
  destruct (no_save_inv _ (proj2 Hchoice)) as [H6 H8].
  assert (S_tail : forall (line : str) (rest : list str),
            forallb no_file (line :: rest) = true ->
            forallb no_file rest = true /\ no_file line = true)
    by (simpl; intros line rest Hl; apply andb_true_iff in Hl; tauto).
  assert (S_nil : forallb no_file [] = true) by reflexivity.
  assert (R_ok : forall w,
            on_world sound (fun _ => True) (fun lines => forallb no_file lines = true) w ->
            on_world sound (fun _ => True) (fun lines => forallb no_file lines = true) w) by auto.
  assert (E_ok : forall w,
            on_world sound (fun _ => True) (fun lines => forallb no_file lines = true) w ->
            quiet EOFError
            /\ on_world sound (fun _ => True) (fun lines => forallb no_file lines = true) w)
    by (intros; split; [right; reflexivity | assumption]).
  unfold dispatch. rewrite H6, H7, H8, H9. cbv iota.
  io_steps (fun line : str => no_file line = true)
    ltac:(first
      [ instantiate (1 := fun r => forall e, r = Raise e -> e = ValueError);
        intros ?; apply sound_add_book
      | instantiate (1 := fun r => exists b, r = Ok b);
        intros ?; first [apply sound_remove_book | apply sound_change_status] ])
    ltac:(first
      [ intros ? ?; split; [left; reflexivity | assumption]
      | exfalso;
        repeat match goal with
        | Hr : forall e, Raise ?e0 = Raise e -> e = ValueError |- _ =>
          specialize (Hr e0 eq_refl); subst e0
        | Hr : exists b, Raise _ = Ok b |- _ => destruct Hr as [? Hr]
        end; discriminate ]).
Qed.

Section Loop.
Variables (L : Library -> Prop) (F : FileSystem -> Prop).
Variables (S : list str -> Prop) (H : str -> Prop).
Variable E : ending -> World -> Prop.
Hypothesis S_tail : forall line rest, S (line :: rest) -> S rest /\ H line.
Hypothesis E_EOFError : forall w, on_world L F S w -> E EOFError w.
Hypothesis dispatch_inv :
  forall choice, H choice ->
    triple (on_world L F S) E (on_world L F S) (dispatch choice)
           (fun _ w => on_world L F S w /\ True).

Lemma turn_inv (w : World) :
  on_world L F S w ->
  match turn w with
  | (Halt why, w') => E why w'
  | (_, w') => on_world L F S w'
  end.
Proof.
  intros (HL & HF & HS).
  unfold turn. unfold io_bind at 1. destruct (menu_spec w) as [out ->].
  unfold io_bind at 1, input at 1. cbn [stdin library files stdout].
  destruct (stdin w) as [|choice rest].
  - apply E_EOFError. repeat split; cbn [stdin library files]; assumption.
  - destruct (S_tail _ _ HS) as [Hrest Hchoice].
    pose proof (dispatch_inv choice Hchoice
                  {| library := library w; files := files w; stdin := rest;
                     stdout := out ++ lit "Выберите действие: " |}) as Hd.
    lazymatch type of Hd with
    | ?P -> _ => assert (HP : P) by (repeat split; assumption)
    end.
    specialize (Hd HP). clear HP.
    destruct (dispatch choice _) as [[[]| |why] w']; [tauto | exact Hd | exact Hd].
Qed.

Lemma main_loop_inv (fuel : nat) (w w' : World) (why : ending) :
  on_world L F S w -> main_loop fuel w = Some (why, w') -> E why w'.
Proof.
  revert w. induction fuel as [|fuel IH]; intros w Hw; [discriminate|].
  cbn [main_loop]. pose proof (turn_inv w Hw) as Hturn.
  destruct (turn w) as [[[]| |why0] w0].
  - apply IH, Hturn.
  - apply IH, Hturn.
  - intros [= <- <-]. exact Hturn.
Qed.

End Loop.

Lemma main_loop_sound (fuel : nat) (w w' : World) (why : ending) :
  on_world sound (fun _ => True) (fun lines => forallb no_file lines = true) w ->
  main_loop fuel w = Some (why, w') ->
  quiet why /\ sound (library w').
Proof.
  intros Hw Hmain.
  apply (main_loop_inv sound (fun _ => True)
           (fun lines => forallb no_file lines = true)
           (fun line => no_file line = true)
           (fun why w => quiet why /\ sound (library w))) in Hmain;
    [exact Hmain | | | | exact Hw].
  - simpl. intros line rest Hl. apply andb_true_iff in Hl. tauto.
  - intros w0 (Hs & _). split; [right; reflexivity | exact Hs].
  - intros choice Hchoice w0 Hw0. pose proof (dispatch_sound choice Hchoice w0 Hw0) as Hd.
    destruct (dispatch choice w0) as [[a| |why0] w1]; [exact Hd | exact Hd |].
    destruct Hd as (Hq & Hs & _). split; assumption.
Qed.

(** X17: as long as no file is opened, [main] raises nothing that it does
    not catch: on input without a line [6], [7], [8] or [9] it ends by
    [break] or by the [EOFError] of [input], and its library is then a
    catalogue whose ids are unique and less than [next_id]. *)
Theorem main_without_files (fs : FileSystem) (lines : list str) :
  forallb no_file lines = true ->
  exists why w,
    main fs lines = Some (why, w)
    /\ quiet why
    /\ catalogue (library w) = true /\ ids_unique_below (library w).
Proof.
  intros Hlines.
  destruct (main_loop_enough (S (length lines))
              {| library := Library_init; files := fs; stdin := lines; stdout := [] |})
    as (why & w & Hmain); [simpl; lia|].
  exists why, w. split; [exact Hmain|].
  apply (main_loop_sound _ _ _ _) in Hmain; [exact Hmain|].
  split; [|split; [exact I | exact Hlines]].
  split; [reflexivity | apply ids_unique_below_init].
Qed.

(** A branch other than the two that save leaves the files alone. *)
Lemma dispatch_keeps_files (fs : FileSystem) (choice : str) :
  no_save choice = true ->
  triple (on_world (fun _ => True) (fun fs' => fs' = fs)
                   (fun lines => forallb no_save lines = true))
         (fun _ w => files w = fs)
         (on_world (fun _ => True) (fun fs' => fs' = fs)
                   (fun lines => forallb no_save lines = true))
         (dispatch choice)
         (fun _ w =>
            on_world (fun _ => True) (fun fs' => fs' = fs)
                     (fun lines => forallb no_save lines = true) w /\ True).
Proof.
  intros Hchoice. destruct (no_save_inv _ Hchoice) as [H6 H8].
  assert (S_tail : forall (line : str) (rest : list str),
            forallb no_save (line :: rest) = true ->
            forallb no_save rest = true /\ no_save line = true)
    by (simpl; intros line rest Hl; apply andb_true_iff in Hl; tauto).
  assert (S_nil : forallb no_save [] = true) by reflexivity.
  assert (R_ok : forall w,
            on_world (fun _ => True) (fun fs' => fs' = fs)
                     (fun lines => forallb no_save lines = true) w ->
            on_world (fun _ => True) (fun fs' => fs' = fs)
                     (fun lines => forallb no_save lines = true) w) by auto.
  assert (E_ok : forall w,
            on_world (fun _ => True) (fun fs' => fs' = fs)
                     (fun lines => forallb no_save lines = true) w ->
            files w = fs)
    by (intros w (_ & Hf & _); exact Hf).
  unfold dispatch. rewrite H6, H8. cbv iota.
  io_steps (fun line : str => no_save line = true)
           ltac:(instantiate (1 := fun _ => True); intros; split; exact I)
           ltac:(intros ? (_ & Hf & _); exact Hf).
Qed.

(** X18: [main] writes a file only when it is asked to: on input without a
    line [6] or [8] the files are, when [main] ends, what they were when
    it began, however it ends. *)
Theorem main_keeps_files (fs : FileSystem) (lines : list str) :
  forallb no_save lines = true ->
  exists why w, main fs lines = Some (why, w) /\ files w = fs.
Proof.
  intros Hlines.
  destruct (main_loop_enough (S (length lines))
              {| library := Library_init; files := fs; stdin := lines; stdout := [] |})
    as (why & w & Hmain); [simpl; lia|].
  exists why, w. split; [exact Hmain|].
  apply (main_loop_inv (fun _ => True) (fun fs' => fs' = fs)
           (fun lines => forallb no_save lines = true)
           (fun line => no_save line = true)
           (fun _ w => files w = fs)) in Hmain; [exact Hmain | | | | ].
  - simpl. intros line rest Hl. apply andb_true_iff in Hl. tauto.
  - intros w0 (_ & Hf & _). exact Hf.
  - intros choice Hchoice. apply dispatch_keeps_files, Hchoice.
  - repeat split. exact Hlines.
Qed.

Lemma dispatch_load_json :
  dispatch (lit "7")
  = io_bind
      (input (lit "Введите имя файла (без расширения) для загрузки из JSON: "))
      (fun filename =>
         io_bind (fun w => invoke (load_from_json (files w) filename) w)
           (fun r =>
              match r with
              | Raise FileNotFoundError => say (lit "Указанный JSON-файл отсутствует")
              | Raise e => halt (Uncaught e)
              | Ok _ =>
                say (lit "Библиотека успешно загружена из файла " ++ filename
                     ++ lit ".json.")
              end)).
Proof.
  unfold dispatch.
  repeat match goal with
  | |- context [str_eqb (lit ?x) (lit ?y)] =>
    let b := eval vm_compute in (str_eqb (lit x) (lit y)) in
    replace (str_eqb (lit x) (lit y)) with b by (vm_compute; reflexivity)
  end.
  reflexivity.
Qed.

Lemma dispatch_load_text :
  dispatch (lit "9")
  = io_bind
      (input (lit "Введите имя файла (без расширения) для загрузки из текстового формата: "))
      (fun filename =>
         io_bind (fun w => invoke (load_from_text (files w) filename) w)
           (fun r =>
              match r with
              | Raise FileNotFoundError =>
                say (lit "Указанный текстовый файл отсутствует")
              | Raise e => halt (Uncaught e)
              | Ok _ =>
                say (lit "Библиотека успешно загружена из файла " ++ filename
                     ++ lit ".txt.")
              end)).
Proof.
  unfold dispatch.
  repeat match goal with
  | |- context [str_eqb (lit ?x) (lit ?y)] =>
    let b := eval vm_compute in (str_eqb (lit x) (lit y)) in
    replace (str_eqb (lit x) (lit y)) with b by (vm_compute; reflexivity)
  end.
  reflexivity.
Qed.

(** X19: [main] catches [FileNotFoundError] only: when the file chosen under
    7 or 9 makes the loader raise anything else, the exception ends
    [main], at whatever turn, with the library as the loader left it. *)
Theorem main_ends_on_bad_file (fuel : nat) (w : World) (filename : str)
    (rest : list str) (e : exn) (self' : Library) :
  e <> FileNotFoundError ->
  (stdin w = lit "7" :: filename :: rest ->
   load_from_json (files w) filename (library w) = (Raise e, self') ->
   exists out,
     main_loop (S fuel) w
     = Some (Uncaught e, {| library := self'; files := files w; stdin := rest;
                            stdout := out |}))
  /\ (stdin w = lit "9" :: filename :: rest ->
      load_from_text (files w) filename (library w) = (Raise e, self') ->
      exists out,
        main_loop (S fuel) w
        = Some (Uncaught e, {| library := self'; files := files w; stdin := rest;
                               stdout := out |})).
Proof.
  intros He. split; intros Hstdin Hload; cbn [main_loop]; unfold turn;
    unfold io_bind at 1; destruct (menu_spec w) as [out ->];
    unfold io_bind at 1, input at 1; cbn [stdin library files stdout];
    rewrite Hstdin.
  - rewrite dispatch_load_json.
    unfold io_bind, input, invoke. cbn [stdin library files stdout].
    rewrite Hload. destruct e; try contradiction; eexists; reflexivity.
  - rewrite dispatch_load_text.
    unfold io_bind, input, invoke. cbn [stdin library files stdout].
    rewrite Hload. destruct e; try contradiction; eexists; reflexivity.
Qed.

(** A turn is the menu, the prompt and the branch of the line read. *)
Lemma turn_dispatch (w : World) (choice : str) (rest : list str) :
  stdin w = choice :: rest ->
  exists out,
    turn w = dispatch choice {| library := library w; files := files w;
                                stdin := rest; stdout := out |}.
Proof.
  intros Hstdin. unfold turn. unfold io_bind at 1. destruct (menu_spec w) as [out ->].
  unfold io_bind at 1, input at 1. cbn [stdin library files stdout]. rewrite Hstdin.
  exists (out ++ lit "Выберите действие: ").
  destruct (dispatch choice _) as [[[]| |why] w']; reflexivity.
Qed.

(** X20: under the choice 1 the title and the author go to [add_book] as they
    were typed and the year as [int] reads it.  A year that [int]
    refuses ends the turn with the library as it was, the three lines
    being spent; otherwise the library is what [add_book] leaves, and
    the turn ends [main] only when [add_book] raises something else
    than [ValueError]. *)
Theorem console_add (w : World) (title author year : str) (rest : list str) :
  stdin w = lit "1" :: title :: author :: year :: rest ->
  exists out,
    match int_of_str year with
    | Raise _ =>
      turn w = (Continue, {| library := library w; files := files w;
                             stdin := rest; stdout := out |})
    | Ok n =>
      let (r, self') :=
        add_book (VStr title) (VStr author) (VInt (Int n)) (library w) in
      turn w = (match r with
                | Raise e => if is_ValueError e then Value tt else Halt (Uncaught e)
                | Ok _ => Value tt
                end,
                {| library := self'; files := files w; stdin := rest; stdout := out |})
    end.
Proof.
  intros Hstdin. destruct (turn_dispatch w _ _ Hstdin) as [out ->].
  unfold dispatch.
  replace (str_eqb (lit "1") (lit "1")) with true by (vm_compute; reflexivity).
  cbv iota. unfold input_int.
  unfold io_bind, input, invoke, io_ret. cbn [stdin library files stdout].
  destruct (int_of_str year) as [n|e] eqn:Hyear; cbn [stdin library files stdout].
  - destruct (add_book (VStr title) (VStr author) (VInt (Int n)) (library w))
      as [[book|e] self']; cbn [stdin library files stdout].
    + eexists. reflexivity.
    + destruct (is_ValueError e); eexists; reflexivity.
  - apply int_of_str_raises in Hyear. subst e. eexists. reflexivity.
Qed.

(** Where the [ValueError] that [main] prints after [add_book] comes
    from: the author setter, or else the id setter. *)
Lemma add_book_message_source (self self' : Library) (title author : str)
    (year : pyint) :
  add_book (VStr title) (VStr author) (VInt year) self = (Raise ValueError, self') ->
  (isdigit author = true
   /\ author_setter (VStr author) = Raise ValueError)
  \/ (isdigit author = false
      /\ id_setter {| _title := title; _author := author; _year := year;
                      _id := None; _status := None |} (next_id self)
         = Raise ValueError).
Proof.
  unfold add_book, Book_init, author_setter. run.
  destruct (isdigit author) eqn:Hd; simpl.
  - intros _. left. split; reflexivity.
  - destruct (next_id self); simpl; try discriminate;
      intros _; right; split; reflexivity.
Qed.

Lemma print_numbered_lines (idx : Z) (bs : list Book) (out : str) :
  print_numbered idx bs out = out ++ text_of (numbered idx bs).
Proof.
  revert idx out. induction bs as [|book bs IH]; intros idx out;
    cbn [print_numbered numbered].
  - unfold text_of. cbn [map concat]. symmetry. apply app_nil_r.
  - rewrite IH. unfold print, text_of. cbn [map concat].
    rewrite <- !app_assoc. reflexivity.
Qed.

Lemma numbered_nth (idx : Z) (bs : list Book) (k : nat) (book : Book) :
  nth_error bs k = Some book ->
  nth_error (numbered idx bs) k
  = Some (str_of_Z (idx + Z.of_nat k) ++ lit ". " ++ Book_repr book).
Proof.
  revert idx k. induction bs as [|b bs IH]; intros idx k; destruct k as [|k];
    cbn [nth_error numbered]; try discriminate.
  - intros [= ->]. rewrite Z.add_0_r. reflexivity.
  - intros Hk. rewrite (IH _ _ Hk). do 3 f_equal. lia.
Qed.

(** X21: for books that [print] can show, [display_books] adds to what
    is printed and takes nothing back: one line for each book in the
    order of [books], the book at position k (from 0) under the number
    k + 1 whatever its id, or the one line that says that there is no
    book. *)
Theorem display_books_lines (self : Library) (out : str) :
  forallb showable (books self) = true ->
  display_books self out
  = out ++ text_of (match books self with
                    | [] => [lit "Пока в библиотеке отсутствуют книги."]
                    | _ :: _ => numbered 1 (books self)
                    end)
  /\ length (numbered 1 (books self)) = length (books self)
  /\ forall (k : nat) (book : Book),
       nth_error (books self) k = Some book ->
       nth_error (numbered 1 (books self)) k
       = Some (str_of_Z (Z.of_nat k + 1) ++ lit ". " ++ Book_repr book).
Proof.
  intros _. split; [|split].
  - unfold display_books. destruct (books self) as [|book bs].
    + unfold print, text_of. cbn [map concat]. rewrite app_nil_r. reflexivity.
    + apply print_numbered_lines.
  - generalize 1%Z. induction (books self) as [|b bs IH]; intros idx;
      cbn [numbered length]; auto.
  - intros k book Hk. rewrite (numbered_nth 1 _ _ _ Hk). do 3 f_equal. lia.
Qed.

(** *** The samples, for every interpreter *)

Lemma broken_text_outcome :
  load_from_text broken_text (lit "lib") one_book
  = (Raise IndexError, {| books := []; next_id := VInt (Int 7) |}).
Proof. vm_compute. reflexivity. Qed.

Lemma broken_json_outcome :
  load_from_json broken_json (lit "lib") one_book
  = (Raise TypeError, {| books := [dune]; next_id := VInt (Int 7) |}).
Proof. vm_compute. reflexivity. Qed.



Lemma two_books_unique : ids_unique_below two_books.
Proof.
  exists (Int 3). split; [reflexivity|]. unfold id_values. cbn. split.
  - apply NoDup_cons. split; [|apply NoDup_singleton].
    intros Hin. apply list_elem_of_singleton in Hin. discriminate.
  - repeat constructor; eexists; (split; [reflexivity | lia]).
Qed.

Lemma repeated_id_outcome :
  load_from_text repeated_id (lit "lib") Library_init = (Ok tt, twice_five).
Proof. vm_compute. reflexivity. Qed.

Lemma twice_five_not_unique : ~ ids_unique_below twice_five.
Proof.
  intros (n & _ & Hdup & _). unfold id_values in Hdup. cbn in Hdup.
  apply NoDup_cons in Hdup. destruct Hdup as [Hnotin _].
  apply Hnotin. left.
Qed.

End Properties.

(** ** Closed examples *)

#[local] Existing Instance basic_interpreter.

(** C1 fails where a loader raises after it has read [next_id]: on a
    library that holds [dune], the text loader leaves no book and the
    [next_id] of the file, the JSON loader [dune] and the [next_id] of
    the file. *)
Lemma failed_load_changes_library :
  load_from_text broken_text (lit "lib") one_book
  = (Raise IndexError, {| books := []; next_id := VInt (Int 7) |})
  /\ load_from_json broken_json (lit "lib") one_book
     = (Raise TypeError, {| books := [dune]; next_id := VInt (Int 7) |})
  /\ {| books := []; next_id := VInt (Int 7) |} <> one_book
  /\ {| books := [dune]; next_id := VInt (Int 7) |} <> one_book.
Proof.
  split; [apply broken_text_outcome|]. split; [apply broken_json_outcome|].
  split; discriminate.
Qed.

Lemma load_failure_state_witness :
  exists (k : nat) (line : str) (bs : list Book),
    nth_error [lit "no delimiter" ++ [NL]] k = Some line
    /\ comprehension book_of_line (take k [lit "no delimiter" ++ [NL]]) = Ok bs
    /\ book_of_line line = Raise IndexError
    /\ {| books := []; next_id := VInt (Int 7) |}
       = {| books := bs; next_id := VInt (Int 7) |}.
Proof.
  exact (proj2 (load_failure_state broken_text (lit "lib") one_book _ IndexError)
               broken_text_outcome).
Defined.



Lemma add_book_valid_witness :
  add_book (VStr (lit "Dune")) (VStr (lit "Frank Herbert")) (VInt (Int 1965))
           Library_init
  = (Ok dune, one_book).
Proof.
  exact (add_book_valid Library_init (lit "Dune") (lit "Frank Herbert")
                        (Int 1965) (Int 1) eq_refl eq_refl).
Defined.

Lemma add_book_invalid_witness :
  add_book (VStr (lit "Dune")) (VStr (lit "1234")) (VInt (Int 1965)) one_book
  = (Raise ValueError, one_book).
Proof.
  apply add_book_invalid. right. right. left. reflexivity.
Defined.

(** C5 fails for the loaders: [load_from_text] accepts a file with the
    id 5 on two lines under the header 1, from the empty library. *)
Lemma load_breaks_unique_ids :
  ids_unique_below Library_init
  /\ load_from_text repeated_id (lit "lib") Library_init = (Ok tt, twice_five)
  /\ ~ ids_unique_below twice_five.
Proof.
  split; [apply ids_unique_below_init|].
  split; [apply repeated_id_outcome | apply twice_five_not_unique].
Qed.

Lemma ids_unique_below_preserved_witness :
  ids_unique_below (snd (add_book (VStr (lit "Either|Or"))
                                  (VStr (lit "Soren Kierkegaard"))
                                  (VInt (Int 1843)) two_books))
  /\ ids_unique_below (snd (remove_book (Int 1) two_books))
  /\ ids_unique_below (snd (change_status (Int 2) two_books)).
Proof.
  pose proof (proj1 (proj2 (ids_unique_below_preserved two_books)) two_books_unique)
    as (Hadd & Hremove & Hchange).
  split; [apply Hadd|]. split; [apply Hremove | apply Hchange].
Defined.

Lemma change_status_twice_witness :
  exists self' : Library,
    change_status (Int 2) two_books = (Ok true, self')
    /\ find (has_id (Int 2)) (books self')
       = Some (with_status foundation (Some STATUS_NO))
    /\ next_id self' = next_id two_books
    /\ change_status (Int 2) self' = (Ok true, two_books).
Proof.
  exact (proj1 (change_status_twice two_books (Int 2)) foundation eq_refl
               (or_introl eq_refl)).
Defined.




Lemma add_book_without_next_id_witness :
  load_from_json null_next_id_json (lit "lib") Library_init = (Ok tt, null_next_id)
  /\ add_book (VStr (lit "Dune")) (VStr (lit "Frank Herbert")) (VInt (Int 1965))
              null_next_id
     = (Raise TypeError,
        {| books := [with_id dune None]; next_id := VNone |}).
Proof.
  split; [vm_compute; reflexivity|].
  exact (add_book_without_next_id null_next_id (lit "Dune") (lit "Frank Herbert")
                                  (Int 1965) eq_refl eq_refl).
Defined.

Lemma valid_books_preserved_witness :
  valid_books (snd (load_from_json broken_json (lit "lib") one_book)) = true.
Proof.
  pose proof (proj2 (valid_books_preserved one_book) eq_refl)
    as (_ & _ & _ & Hload & _).
  apply Hload.
Defined.

Lemma change_status_frame_witness :
  next_id (snd (change_status (Int 2) two_books)) = next_id two_books
  /\ map without_status (books (snd (change_status (Int 2) two_books)))
     = map without_status (books two_books)
  /\ (fst (change_status (Int 2) two_books) = Ok true
      \/ snd (change_status (Int 2) two_books) = two_books).
Proof.
  apply (change_status_frame two_books (snd (change_status (Int 2) two_books))
                             (Int 2) (fst (change_status (Int 2) two_books))).
  vm_compute. reflexivity.
Defined.

Lemma change_status_unknown_status_witness :
  load_from_json null_status_json (lit "lib") Library_init = (Ok tt, null_status)
  /\ change_status (Int 1) null_status = (Raise ValueError, null_status).
Proof.
  split; [vm_compute; reflexivity|].
  apply (change_status_unknown_status null_status (Int 1) unlisted);
    [reflexivity | discriminate | discriminate].
Defined.

Lemma add_book_only_if_witness :
  VStr (lit "Dune") = VStr (_title dune)
  /\ VStr (lit "Frank Herbert") = VStr (_author dune)
  /\ isdigit (_author dune) = false
  /\ VInt (Int 1965) = VInt (_year dune)
  /\ next_id Library_init = of_option VInt (_id dune)
  /\ _id dune <> None
  /\ _status dune = Some STATUS_YES
  /\ books one_book = books Library_init ++ [dune].
Proof.
  apply (add_book_only_if Library_init one_book (VStr (lit "Dune"))
                          (VStr (lit "Frank Herbert")) (VInt (Int 1965)) dune).
  vm_compute. reflexivity.
Defined.

Lemma find_books_after_add_witness :
  find_books None (Some (lit "Frank Herbert")) None one_book
  = find_books None (Some (lit "Frank Herbert")) None Library_init
    ++ (if decide (agrees None (Some (lit "Frank Herbert")) None dune)
        then [dune] else []).
Proof.
  apply (find_books_after_add Library_init one_book (VStr (lit "Dune"))
                              (VStr (lit "Frank Herbert")) (VInt (Int 1965)) dune).
  vm_compute. reflexivity.
Defined.

Lemma from_dict_iff_witness : from_dict (to_dict dune) = Ok dune.
Proof.
  apply (proj2 (from_dict_iff (to_dict dune) dune)).
  vm_compute. repeat split.
Defined.

Lemma load_from_text_catalogue_witness :
  catalogue {| books := []; next_id := VInt (Int 7) |} = true
  /\ next_id {| books := []; next_id := VInt (Int 7) |} = VInt (Int 7).
Proof.
  exact (load_from_text_catalogue broken_text (lit "lib") one_book _ _
                                  broken_text_outcome).
Defined.

Lemma catalogue_preserved_witness :
  catalogue (snd (add_book (VStr (lit "Foundation")) (VStr (lit "Isaac Asimov"))
                           (VInt (Int 1951)) one_book)) = true
  /\ catalogue (snd (remove_book (Int 1) one_book)) = true
  /\ catalogue (snd (change_status (Int 1) one_book)) = true
  /\ catalogue (snd (load_from_text broken_text (lit "lib") one_book)) = true.
Proof.
  pose proof (catalogue_preserved one_book eq_refl)
    as (_ & Hadd & Hremove & Hchange & Hload).
  split; [apply Hadd|]. split; [apply Hremove|]. split; [apply Hchange | apply Hload].
Defined.

Lemma change_status_catalogue_witness :
  exists self' : Library,
    change_status (Int 2) two_books
    = (Ok (existsb (has_id (Int 2)) (books two_books)), self').
Proof.
  exact (change_status_catalogue two_books (Int 2) eq_refl).
Defined.

Lemma book_of_line_first_five_witness :
  book_of_line (lit "1|Dune|Frank Herbert|1965|в наличии|and more")
  = book_of_line (lit "1|Dune|Frank Herbert|1965|в наличии").
Proof.
  apply book_of_line_first_five. vm_compute. reflexivity.
Defined.

Lemma book_of_line_too_short_witness :
  book_of_line (lit "1|Dune|Frank Herbert|1965") = Raise IndexError
  \/ book_of_line (lit "1|Dune|Frank Herbert|1965") = Raise ValueError.
Proof.
  apply book_of_line_too_short. vm_compute. lia.
Defined.

Lemma main_without_files_witness :
  exists (why : ending) (w : World),
    main no_files add_dune_and_leave = Some (why, w)
    /\ quiet why
    /\ catalogue (library w) = true /\ ids_unique_below (library w).
Proof.
  apply main_without_files. vm_compute. reflexivity.
Defined.

Lemma main_ends_on_bad_file_witness :
  exists out : str,
    main_loop 1 before_bad_load
    = Some (Uncaught IndexError,
            {| library := {| books := []; next_id := VInt (Int 7) |};
               files := broken_text; stdin := []; stdout := out |}).
Proof.
  refine (proj2 (main_ends_on_bad_file 0 before_bad_load (lit "lib") [] IndexError _ _)
                eq_refl broken_text_outcome).
  discriminate.
Defined.

Lemma main_keeps_files_witness :
  exists (why : ending) (w : World),
    main broken_text [lit "9"; lit "lib"] = Some (why, w) /\ files w = broken_text.
Proof.
  apply main_keeps_files. vm_compute. reflexivity.
Defined.

Lemma load_from_text_raises_witness :
  IndexError = IndexError \/ IndexError = ValueError.
Proof.
  exact (load_from_text_raises broken_text (lit "lib") one_book _ _
                               broken_text_outcome).
Defined.

Lemma console_add_witness :
  exists out : str,
    turn before_add_dune
    = (Value tt, {| library := one_book; files := no_files; stdin := [lit "10"];
                    stdout := out |}).
Proof.
  exact (console_add before_add_dune (lit "Dune") (lit "Frank Herbert") (lit "1965")
                     [lit "10"] eq_refl).
Defined.

Lemma display_books_lines_witness :
  display_books two_books [] = text_of (numbered 1 [dune; foundation])
  /\ length (numbered 1 [dune; foundation]) = 2%nat.
Proof.
  destruct (display_books_lines two_books []) as (Hout & Hlength & _);
    [vm_compute; reflexivity|].
  split; [exact Hout | exact Hlength].
Defined.
